(** * Student roster manager (studentmanager.py): model and verified properties

    The program keeps a pandas DataFrame of student rows (roll_no, name,
    marks), loads it from and saves it to one spreadsheet, and drives
    add / search / update / delete / report from console input.

    Modelling conventions.
    - A DataFrame is the list of its rows, in row order.  Row labels are
      not modelled: they are unique in every frame the program builds
      (read_excel gives a RangeIndex, concat is called with
      ignore_index=True, boolean filtering keeps a sub-family of labels),
      so [.loc[index_to_update, col] = v] writes exactly the rows whose
      roll_no matched.
    - A cell that pandas holds as NaN (blank spreadsheet cell) is [None];
      the numeric columns of the sheet hold integers or blanks.  A sheet
      on which read_excel or the roll_no conversion raises is [Unreadable].
    - Console input is the list of lines still to be read; [input()] on an
      exhausted console raises EOFError, which no method catches.
    - Console output is a list of structured messages, one constructor per
      [print] of the source that reports an outcome; prompts and banner
      lines are not recorded.
    - The spreadsheet is read once, at startup.  What the program writes
      later is recorded as the frame handed to to_excel; what read_excel
      would find in such a file is not modelled.
    - The builtins [int] and [str.strip] are modelled on ASCII text.
    - view_students and the menu loop only print and dispatch; they are
      not modelled.  A run of the menu is a sequence of completed
      actions, see [step] and [observable]. *)

From Stdlib Require Import String Ascii ZArith Bool Lia QArith List.
From Equations Require Import Equations.
From Equations.Prop Require Import Logic.
Import ListNotations.
Open Scope string_scope.
Open Scope Z_scope.

(* ------------------------------------------------------------------ *)
(** ** Data model *)

(** One row of the DataFrame, columns COLUMNS = ['roll_no','name','marks']. *)
Record row := mkRow {
  roll_no : Z;
  name : option string;
  marks : option Z
}.

Definition DataFrame := list row.

(** One row of the persisted sheet: roll_no may be blank there. *)
Record raw_row := mkRaw {
  raw_roll : option Z;
  raw_name : option string;
  raw_marks : option Z
}.

(** What [os.path.exists] and [pd.read_excel] find on disk. *)
Inductive file :=
| Absent                         (* no file of that name *)
| Unreadable                     (* file exists, reading or converting it raises *)
| Sheet (rows : list raw_row).   (* the sheet's rows *)

(** The file as the program finds it; [writable = false] makes ExcelWriter raise. *)
Record disk := mkDisk {
  content : file;
  writable : bool
}.

(** The file during a run: as found at startup, and the frame last handed
    to [to_excel], which has overwritten it, once a save has succeeded. *)
Record store := mkStore {
  found : disk;
  written : option DataFrame
}.

(** The file before anything has been written. *)
Definition untouched (d : disk) : store := mkStore d None.

Coercion untouched : disk >-> store.

Record StudentManager := mkManager {
  students_df : DataFrame;
  storage : store
}.

(** A row together with its derived 'class' column. *)
Definition classed := (row * string)%type.

(** The summary printed by generate_report. *)
Record report := mkReport {
  total : nat;
  mean : option Q;
  highest : option Z;
  lowest : option Z;
  class_counts : list (string * nat);
  top_students : list classed
}.

(** Outcome lines written to the console. *)
Inductive msg :=
| ReadErrorWarning                (* Error reading file ...: Starting with an empty roster. *)
| DataSaved                       (* Data saved successfully to ... *)
| SaveError                       (* Error saving data to Excel: ... *)
| MustBeAtLeast (min_val : Z)     (* Value must be at least {min_val}. *)
| CannotExceed (max_val : Z)      (* Value cannot exceed {max_val}. *)
| NotWholeNumber                  (* Invalid input. Please enter a whole number. *)
| NameEmpty                       (* Student name cannot be empty. *)
| RollExists (r : Z)              (* Error: Roll number {r} already exists. *)
| StudentAdded                    (* Student added successfully. *)
| StudentFound (r : Z) (rows : list classed)  (* Student Found (Roll No: {r}): + table *)
| StudentNotFound (r : Z)         (* Student with roll number {r} not found. (search, update, delete) *)
| CurrentRecord (rows : DataFrame)            (* Current Record: + table *)
| NameUpdated                     (* Name updated. *)
| NameUpdateCancelled             (* Name update cancelled (Name cannot be empty). *)
| MarksUpdated                    (* Marks updated. *)
| InvalidChoice                   (* Invalid choice. Update cancelled. *)
| StudentDeleted (r : Z)          (* Student with roll number {r} deleted. *)
| RosterEmptyReport               (* Cannot generate report: The student roster is empty. *)
| PerformanceReport (rep : report).

(* ------------------------------------------------------------------ *)
(** ** Console interaction *)

(** Result of running a piece of interactive code on the pending input
    lines: either a value, the lines left and the messages printed, or an
    uncaught EOFError after some messages. *)
Inductive result (A : Type) : Type :=
| Ret (a : A) (rest : list string) (out : list msg)
| EOFError (out : list msg).
Arguments Ret {A} a rest out.
Arguments EOFError {A} out.

Definition IO (A : Type) : Type := list string -> result A.

(** Messages [pre] were printed before [r] ran. *)
Definition after {A} (pre : list msg) (r : result A) : result A :=
  match r with
  | Ret a rest out => Ret a rest (pre ++ out)
  | EOFError out => EOFError (pre ++ out)
  end.

Definition ret {A} (a : A) : IO A := fun inp => Ret a inp [].

Definition bind {A B} (m : IO A) (k : A -> IO B) : IO B :=
  fun inp =>
    match m inp with
    | Ret a rest out => after out (k a rest)
    | EOFError out => EOFError out
    end.

Notation "x <- m ;; k" := (bind m (fun x => k))
  (at level 61, m at next level, right associativity).
Notation "m ;;; k" := (bind m (fun _ => k))
  (at level 61, right associativity).

Definition print (m : msg) : IO unit := fun inp => Ret tt inp [m].

(** [input(prompt)]: the next console line, EOFError when there is none. *)
Definition input : IO string :=
  fun inp =>
    match inp with
    | [] => EOFError []
    | l :: rest => Ret l rest []
    end.

(* ------------------------------------------------------------------ *)
(** ** Python builtins used by the program (ASCII model) *)

Definition isspace (c : ascii) : bool :=
  let n := nat_of_ascii c in
  (((9 <=? n) && (n <=? 13)) || ((28 <=? n) && (n <=? 32)))%nat.

Fixpoint lstrip (l : list ascii) : list ascii :=
  match l with
  | c :: l' => if isspace c then lstrip l' else l
  | [] => []
  end.

(** [s.strip()] *)
Definition strip (s : string) : string :=
  string_of_list_ascii
    (rev (lstrip (rev (lstrip (list_ascii_of_string s))))).

Definition digit_value (c : ascii) : option Z :=
  let n := nat_of_ascii c in
  if ((48 <=? n) && (n <=? 57))%nat then Some (Z.of_nat n - 48) else None.

(** Decimal digits with single underscores between digits. *)
Fixpoint digits_value (acc : Z) (after_digit : bool) (l : list ascii) : option Z :=
  match l with
  | [] => if after_digit then Some acc else None
  | c :: l' =>
      match digit_value c with
      | Some d => digits_value (10 * acc + d) true l'
      | None =>
          if (Ascii.eqb c "_" && after_digit)%bool
          then digits_value acc false l'
          else None
      end
  end.

(** The blanks [int] skips around the digits: tab to carriage return, and space. *)
Definition isspace_int (c : ascii) : bool :=
  let n := nat_of_ascii c in
  (((9 <=? n) && (n <=? 13)) || (n =? 32))%nat.

Fixpoint lstrip_int (l : list ascii) : list ascii :=
  match l with
  | c :: l' => if isspace_int c then lstrip_int l' else l
  | [] => []
  end.

(** [int(s)]: [None] stands for ValueError. *)
Definition py_int (s : string) : option Z :=
  match rev (lstrip_int (rev (lstrip_int (list_ascii_of_string s)))) with
  | "-"%char :: l => option_map Z.opp (digits_value 0 false l)
  | "+"%char :: l => digits_value 0 false l
  | l => digits_value 0 false l
  end.

(* ------------------------------------------------------------------ *)
(** ** Classifier: _apply_class_label *)

Definition bins : list Z := [0; 35; 50; 60; 75; 101].
Definition labels : list string :=
  ["Fail"; "Third Class"; "Second Class"; "First Class"; "Distinction"].

(** [pd.cut(x, bins, labels, right=False)] on one value: the label of the
    interval [bins[i], bins[i+1]) holding x, NaN ([None]) when there is none. *)
Fixpoint cut (bs : list Z) (ls : list string) (x : Z) : option string :=
  match bs, ls with
  | lo :: ((hi :: _) as bs'), lab :: ls' =>
      if (lo <=? x) && (x <? hi) then Some lab else cut bs' ls' x
  | _, _ => None
  end.

(** [pd.cut] on a cell: a missing value stays missing. *)
Definition cut_cell (m : option Z) : option string :=
  match m with
  | Some x => cut bins labels x
  | None => None
  end.

(** [.astype(str)] on a categorical cell. *)
Definition astype_str (c : option string) : string :=
  match c with
  | Some l => l
  | None => "nan"
  end.

(** [.replace('nan', 'Fail')] on a cell. *)
Definition replace_nan (s : string) : string :=
  if String.eqb s "nan" then "Fail" else s.

(** The 'class' cell computed for a 'marks' cell. *)
Definition class_label (m : option Z) : string :=
  replace_nan (astype_str (cut_cell m)).

(** The frame with its 'class' column; an empty frame is returned as it is. *)
Definition _apply_class_label (df : DataFrame) : list classed :=
  match df with
  | [] => []
  | _ => map (fun r => (r, class_label (marks r))) df
  end.

(* ------------------------------------------------------------------ *)
(** ** Storage: _load_data, _save_data, __init__ *)

(** [df['roll_no'].fillna(-1).astype(int)] on one row. *)
Definition fill_roll (r : raw_row) : row :=
  mkRow (match raw_roll r with Some z => z | None => -1 end)
        (raw_name r) (raw_marks r).

(** The frame loaded at startup and what is printed while loading. *)
Definition _load_data (d : disk) : DataFrame * list msg :=
  match content d with
  | Sheet rows => (map fill_roll rows, [])
  | Unreadable => ([], [ReadErrorWarning])
  | Absent => ([], [])
  end.

Definition init (d : disk) : StudentManager * list msg :=
  (mkManager (fst (_load_data d)) (untouched d), snd (_load_data d)).

(** Writes the whole frame over the file; a failure is printed, not raised. *)
Definition _save_data (self : StudentManager) : IO StudentManager :=
  if writable (found (storage self))
  then
    print DataSaved ;;;
    ret (mkManager (students_df self)
                   (mkStore (found (storage self)) (Some (students_df self))))
  else
    print SaveError ;;; ret self.

(* ------------------------------------------------------------------ *)
(** ** Integer prompt: _get_integer_input *)

(** [min_val is not None and value < min_val], with the line printed then. *)
Definition too_low (min_val : option Z) (value : Z) : option msg :=
  match min_val with
  | Some lo => if value <? lo then Some (MustBeAtLeast lo) else None
  | None => None
  end.

(** [max_val is not None and value > max_val], with the line printed then. *)
Definition too_high (max_val : option Z) (value : Z) : option msg :=
  match max_val with
  | Some hi => if hi <? value then Some (CannotExceed hi) else None
  | None => None
  end.

(** Reads lines until one parses as an integer within the given bounds. *)
Fixpoint _get_integer_input (min_val max_val : option Z) (inp : list string)
  : result Z :=
  match inp with
  | [] => EOFError []
  | l :: rest =>
      match py_int l with
      | None =>
          after [NotWholeNumber] (_get_integer_input min_val max_val rest)
      | Some value =>
          match too_low min_val value with
          | Some complaint =>
              after [complaint] (_get_integer_input min_val max_val rest)
          | None =>
              match too_high max_val value with
              | Some complaint =>
                  after [complaint] (_get_integer_input min_val max_val rest)
              | None => Ret value rest []
              end
          end
      end
  end.

(* ------------------------------------------------------------------ *)
(** ** DataFrame expressions used by the methods *)

(** [df['roll_no'].values] *)
Definition roll_values (df : DataFrame) : list Z := map roll_no df.

(** [r in df['roll_no'].values] *)
Definition roll_in (r : Z) (df : DataFrame) : bool :=
  existsb (Z.eqb r) (roll_values df).

(** [df[df['roll_no'] == r]] *)
Definition rows_with_roll (df : DataFrame) (r : Z) : DataFrame :=
  filter (fun x => roll_no x =? r) df.

(** [df[df['roll_no'] != r]] *)
Definition rows_without_roll (df : DataFrame) (r : Z) : DataFrame :=
  filter (fun x => negb (roll_no x =? r)) df.

Definition set_name (v : string) (x : row) : row :=
  mkRow (roll_no x) (Some v) (marks x).

Definition set_marks (v : Z) (x : row) : row :=
  mkRow (roll_no x) (name x) (Some v).

(** [df.loc[df[df['roll_no'] == r].index, col] = v], with [f] writing
    column [col] of one row. *)
Definition loc_set (df : DataFrame) (r : Z) (f : row -> row) : DataFrame :=
  map (fun x => if roll_no x =? r then f x else x) df.

(** [pd.concat([df, new_row], ignore_index=True)] *)
Definition concat_row (df : DataFrame) (new_row : row) : DataFrame :=
  (df ++ [new_row])%list.

Definition with_df (self : StudentManager) (df : DataFrame) : StudentManager :=
  mkManager df (storage self).

(* ------------------------------------------------------------------ *)
(** ** add_student *)

(** The [while True] loop of add_student: asks for a roll number until the
    one entered is not in the roster. *)
Equations? add_student_roll_loop (df : DataFrame) (inp : list string)
  : result Z by wf (length inp) lt :=
  add_student_roll_loop df inp with inspect (_get_integer_input None None inp) := {
    | exist _ (EOFError out) _ => EOFError out
    | exist _ (Ret roll rest out) Hread =>
        if roll_in roll df
        then after (out ++ [RollExists roll]) (add_student_roll_loop df rest)
        else Ret roll rest out }.
Proof.
  (* every accepted line is consumed, so fewer lines are left *)
  clear add_student_roll_loop. revert roll rest out Hread.
  induction inp as [|l inp IH]; simpl; intros roll rest out Hread; [discriminate|].
  assert (Hrec : forall pre,
             after pre (_get_integer_input None None inp) = Ret roll rest out ->
             (length rest < S (length inp))%nat).
  { intros pre Hpre.
    destruct (_get_integer_input None None inp) as [v' rest' out'|out'];
      simpl in Hpre; [|discriminate].
    injection Hpre as -> -> _. specialize (IH _ _ _ eq_refl). lia. }
  destruct (py_int l) as [value|]; [|eauto].
  injection Hread as _ -> _. lia.
Qed.

Definition add_student (self : StudentManager) : IO StudentManager :=
  line <- input ;;
  let name := strip line in
  if String.eqb name "" then
    print NameEmpty ;;; ret self
  else
    roll <- add_student_roll_loop (students_df self) ;;
    marks <- _get_integer_input (Some 0) (Some 100) ;;
    let new_row := mkRow roll (Some name) (Some marks) in
    saved <- _save_data (with_df self (concat_row (students_df self) new_row)) ;;
    print StudentAdded ;;; ret saved.

(* ------------------------------------------------------------------ *)
(** ** search_student *)

Definition search_student (self : StudentManager) : IO unit :=
  roll <- _get_integer_input None None ;;
  let result := rows_with_roll (students_df self) roll in
  match result with
  | _ :: _ => print (StudentFound roll (_apply_class_label result))
  | [] => print (StudentNotFound roll)
  end.

(* ------------------------------------------------------------------ *)
(** ** update_student *)

Definition update_student (self : StudentManager) : IO StudentManager :=
  roll <- _get_integer_input None None ;;
  let index_to_update := rows_with_roll (students_df self) roll in
  match index_to_update with
  | [] => print (StudentNotFound roll) ;;; ret self
  | _ :: _ =>
      print (CurrentRecord index_to_update) ;;;
      choice <- input ;;
      if String.eqb choice "1" then
        line <- input ;;
        let new_name := strip line in
        if String.eqb new_name "" then
          print NameUpdateCancelled ;;; ret self
        else
          print NameUpdated ;;;
          _save_data (with_df self (loc_set (students_df self) roll (set_name new_name)))
      else if String.eqb choice "2" then
        new_marks <- _get_integer_input (Some 0) (Some 100) ;;
        print MarksUpdated ;;;
        _save_data (with_df self (loc_set (students_df self) roll (set_marks new_marks)))
      else
        print InvalidChoice ;;; ret self
  end.

(* ------------------------------------------------------------------ *)
(** ** delete_student *)

Definition delete_student (self : StudentManager) : IO StudentManager :=
  roll_no_to_delete <- _get_integer_input None None ;;
  if negb (roll_in roll_no_to_delete (students_df self)) then
    print (StudentNotFound roll_no_to_delete) ;;; ret self
  else
    saved <- _save_data (with_df self (rows_without_roll (students_df self) roll_no_to_delete)) ;;
    print (StudentDeleted roll_no_to_delete) ;;; ret saved.

(* ------------------------------------------------------------------ *)
(** ** generate_report *)

(** The non-missing values of a column: pandas reductions skip NaN. *)
Definition dropna (col : list (option Z)) : list Z :=
  flat_map (fun c => match c with Some m => [m] | None => [] end) col.

(** [marks.max()], NaN on no value. *)
Definition series_max (col : list (option Z)) : option Z :=
  match dropna col with
  | [] => None
  | x :: l => Some (fold_left Z.max l x)
  end.

(** [marks.min()], NaN on no value. *)
Definition series_min (col : list (option Z)) : option Z :=
  match dropna col with
  | [] => None
  | x :: l => Some (fold_left Z.min l x)
  end.

(** [marks.mean()] as an exact fraction (the source prints it with two
    decimals), NaN on no value. *)
Definition series_mean (col : list (option Z)) : option Q :=
  match dropna col with
  | [] => None
  | x :: l =>
      Some (Qdiv (inject_Z (fold_left Z.add (x :: l) 0))
                 (inject_Z (Z.of_nat (length (x :: l)))))
  end.

(** [marks == highest_mark] on one cell: NaN equals nothing. *)
Definition cell_eq (m h : option Z) : bool :=
  match m, h with
  | Some a, Some b => a =? b
  | _, _ => false
  end.

Definition count_label (lab : string) (cs : list classed) : nat :=
  length (filter (fun c => String.eqb (snd c) lab) cs).

(** [report_df['class'].value_counts().sort_index()]: the labels that
    occur, in alphabetical order, with their number of rows. *)
Definition value_counts_sorted (cs : list classed) : list (string * nat) :=
  filter (fun p => negb (Nat.eqb (snd p) 0))
         (map (fun lab => (lab, count_label lab cs))
              ["Distinction"; "Fail"; "First Class"; "Second Class"; "Third Class"]).

(** [report_df[report_df['marks'] == highest_mark]] *)
Definition top_performers (report_df : list classed) (highest_mark : option Z)
  : list classed :=
  filter (fun c => cell_eq (marks (fst c)) highest_mark) report_df.

Definition generate_report (self : StudentManager) : IO unit :=
  match students_df self with
  | [] => print RosterEmptyReport
  | _ :: _ =>
      let report_df := _apply_class_label (students_df self) in
      let marks := map (fun c => marks (fst c)) report_df in
      print (PerformanceReport
               (mkReport (length report_df)
                         (series_mean marks)
                         (series_max marks)
                         (series_min marks)
                         (value_counts_sorted report_df)
                         match marks with
                         | [] => []      (* [if not marks.empty] *)
                         | _ :: _ =>
                             let highest_mark := series_max marks in
                             top_performers report_df highest_mark
                         end))
  end.

(* ------------------------------------------------------------------ *)
(** ** Runs of the program *)

(** One mutating menu action (choices 1, 4 and 5) that ran to completion
    on some console input. *)
Inductive step : StudentManager -> StudentManager -> Prop :=
| step_add self inp self' rest out :
    add_student self inp = Ret self' rest out -> step self self'
| step_update self inp self' rest out :
    update_student self inp = Ret self' rest out -> step self self'
| step_delete self inp self' rest out :
    delete_student self inp = Ret self' rest out -> step self self'.

(** The manager states that can be observed when the program is started
    on storage [d]: the state built by __init__, and the state after each
    completed add, update or delete. *)
Inductive observable (d : disk) : StudentManager -> Prop :=
| observable_start : observable d (fst (init d))
| observable_step self self' :
    observable d self -> step self self' -> observable d self'.

(** What search_student shows for roll number [r] on every console input
    that enters [r]. *)
Definition search_shows (self : StudentManager) (r : Z) (m : msg) : Prop :=
  forall inp rest out,
    _get_integer_input None None inp = Ret r rest out ->
    search_student self inp = Ret tt rest (out ++ [m]).

(** What _save_data leaves on storage. *)
Definition saved_storage (st : store) (df : DataFrame) : store :=
  if writable (found st) then mkStore (found st) (Some df) else st.

(** The line printed by _save_data. *)
Definition save_msg (st : store) : msg :=
  if writable (found st) then DataSaved else SaveError.

(* ================================================================== *)
(** * Properties *)

(** ** Console plumbing *)

Arguments strip : simpl never.
Arguments py_int : simpl never.

Lemma after_nil {A} (r : result A) : after [] r = r.
Proof. destruct r; reflexivity. Qed.

Lemma after_after {A} (p q : list msg) (r : result A) :
  after p (after q r) = after (p ++ q) r.
Proof. destruct r; simpl; rewrite app_assoc; reflexivity. Qed.

Lemma after_Ret_inv {A} (p : list msg) (r : result A) a rest out :
  after p r = Ret a rest out ->
  exists out', r = Ret a rest out' /\ out = (p ++ out')%list.
Proof.
  destruct r as [a' rest' out'|out']; simpl; intros H; [|discriminate].
  injection H as -> -> <-. eauto.
Qed.

Lemma bind_Ret {A B} (m : IO A) (k : A -> IO B) inp a rest out :
  m inp = Ret a rest out -> bind m k inp = after out (k a rest).
Proof. unfold bind. intros ->. reflexivity. Qed.

Lemma bind_Ret_inv {A B} (m : IO A) (k : A -> IO B) inp b rest out :
  bind m k inp = Ret b rest out ->
  exists a rest1 out1 out2,
    m inp = Ret a rest1 out1 /\ k a rest1 = Ret b rest out2 /\
    out = (out1 ++ out2)%list.
Proof.
  unfold bind. destruct (m inp) as [a rest1 out1|out1]; [|discriminate].
  intros H. apply after_Ret_inv in H as (out2 & Hk & ->).
  exists a, rest1, out1, out2. auto.
Qed.

Lemma _save_data_run (self : StudentManager) (inp : list string) :
  _save_data self inp =
  Ret (mkManager (students_df self) (saved_storage (storage self) (students_df self)))
      inp [save_msg (storage self)].
Proof.
  unfold _save_data, saved_storage, save_msg.
  destruct self as [df [[c w] wr]]; simpl. destruct w; reflexivity.
Qed.

(** ** Classifier *)

Lemma _apply_class_label_map (df : DataFrame) :
  _apply_class_label df = map (fun r => (r, class_label (marks r))) df.
Proof. destruct df; reflexivity. Qed.

Lemma _apply_class_label_In (df : DataFrame) (r : row) (lab : string) :
  In (r, lab) (_apply_class_label df) <-> In r df /\ lab = class_label (marks r).
Proof.
  rewrite _apply_class_label_map, in_map_iff. split.
  - intros (x & Heq & Hin). injection Heq as -> <-. auto.
  - intros (Hin & ->). eauto.
Qed.

Ltac decide_bins :=
  unfold class_label, cut_cell, bins, labels, cut;
  repeat match goal with
         | |- context [(?a <=? ?b)] => destruct (Z.leb_spec a b); simpl
         | |- context [(?a <? ?b)] => destruct (Z.ltb_spec a b); simpl
         end;
  try reflexivity; try lia.

Lemma class_label_bins (m : Z) :
  (0 <= m < 35 -> class_label (Some m) = "Fail") /\
  (35 <= m < 50 -> class_label (Some m) = "Third Class") /\
  (50 <= m < 60 -> class_label (Some m) = "Second Class") /\
  (60 <= m < 75 -> class_label (Some m) = "First Class") /\
  (75 <= m <= 100 -> class_label (Some m) = "Distinction").
Proof. repeat split; intros H; decide_bins. Qed.

Lemma class_label_outside (m : Z) :
  m < 0 \/ 100 < m -> class_label (Some m) = "Fail".
Proof. intros H; decide_bins. Qed.

(** C1: every row of a frame gets a 'class' cell, and for an integer marks
    value m the cell is Fail on [0,35), Third Class on [35,50), Second
    Class on [50,60), First Class on [60,75) and Distinction on [75,100];
    in particular 0 is Fail, 35 Third Class, 75 and 100 Distinction. *)
Theorem classify_half_open_bins (df : DataFrame) (r : row) (lab : string) (m : Z) :
  In (r, lab) (_apply_class_label df) ->
  marks r = Some m ->
  map fst (_apply_class_label df) = df /\
  (0 <= m < 35 -> lab = "Fail") /\
  (35 <= m < 50 -> lab = "Third Class") /\
  (50 <= m < 60 -> lab = "Second Class") /\
  (60 <= m < 75 -> lab = "First Class") /\
  (75 <= m <= 100 -> lab = "Distinction") /\
  class_label (Some 0) = "Fail" /\
  class_label (Some 35) = "Third Class" /\
  class_label (Some 75) = "Distinction" /\
  class_label (Some 100) = "Distinction".
Proof.
  intros Hin Hm. apply _apply_class_label_In in Hin as [_ ->]. rewrite Hm.
  split.
  { rewrite _apply_class_label_map, map_map. simpl. apply map_id. }
  pose proof (class_label_bins m) as (H1 & H2 & H3 & H4 & H5).
  repeat split; auto.
Qed.

Lemma classify_half_open_bins_witness :
  let r := mkRow 7 (Some "Asha") (Some 35) in
  snd (hd (r, "") (_apply_class_label [r])) = "Third Class".
Proof.
  intros r.
  destruct (classify_half_open_bins [r] r (snd (hd (r, "") (_apply_class_label [r]))) 35)
    as (_ & _ & H & _).
  - simpl. left. reflexivity.
  - reflexivity.
  - apply H. lia.
Defined.

(** C4: a row whose marks cell is missing, or holds an integer outside
    [0,100], gets the 'class' cell Fail. *)
Theorem classify_out_of_range_is_fail (df : DataFrame) (r : row) (lab : string) :
  In (r, lab) (_apply_class_label df) ->
  marks r = None \/ (exists m, marks r = Some m /\ (m < 0 \/ 100 < m)) ->
  lab = "Fail".
Proof.
  intros Hin Hm. apply _apply_class_label_In in Hin as [_ ->].
  destruct Hm as [-> | (m & -> & Hout)].
  - reflexivity.
  - apply class_label_outside, Hout.
Qed.

Lemma classify_out_of_range_is_fail_witness :
  let r := mkRow 4 (Some "Ravi") (Some 101) in
  snd (hd (r, "") (_apply_class_label [r; mkRow 5 None None])) = "Fail".
Proof.
  intros r.
  apply (classify_out_of_range_is_fail [r; mkRow 5 None None] r).
  - simpl. left. reflexivity.
  - right. exists 101. split; [reflexivity | lia].
Defined.

(** ** DataFrame expressions *)

Lemma roll_in_true (r : Z) (df : DataFrame) :
  roll_in r df = true <-> In r (roll_values df).
Proof.
  unfold roll_in. rewrite existsb_exists. split.
  - intros (x & Hin & Heq). apply Z.eqb_eq in Heq. subst. exact Hin.
  - intros Hin. exists r. split; [exact Hin | apply Z.eqb_refl].
Qed.

Lemma roll_in_false (r : Z) (df : DataFrame) :
  roll_in r df = false <-> ~ In r (roll_values df).
Proof.
  rewrite <- roll_in_true. destruct (roll_in r df); split; congruence.
Qed.

Lemma rows_with_roll_In (df : DataFrame) (r : Z) (x : row) :
  In x (rows_with_roll df r) <-> In x df /\ roll_no x = r.
Proof. unfold rows_with_roll. rewrite filter_In, Z.eqb_eq. reflexivity. Qed.

Lemma rows_with_roll_nil (df : DataFrame) (r : Z) :
  rows_with_roll df r = [] <-> roll_in r df = false.
Proof.
  rewrite roll_in_false. unfold roll_values. split.
  - intros Hnil Hin. apply in_map_iff in Hin as (x & Hx & Hin).
    assert (Hx' : In x (rows_with_roll df r)) by (apply rows_with_roll_In; auto).
    rewrite Hnil in Hx'. contradiction.
  - intros Hnot. destruct (rows_with_roll df r) as [|x l] eqn:E; [reflexivity|].
    exfalso. apply Hnot.
    assert (Hx : In x (rows_with_roll df r)) by (rewrite E; left; reflexivity).
    apply rows_with_roll_In in Hx as [Hin <-]. apply in_map, Hin.
Qed.

Lemma rows_with_roll_cons (df : DataFrame) (r : Z) :
  roll_in r df = true -> exists x l, rows_with_roll df r = x :: l.
Proof.
  intros Hin. destruct (rows_with_roll df r) as [|x l] eqn:E; [|eauto].
  apply rows_with_roll_nil in E. congruence.
Qed.

Lemma roll_values_without (df : DataFrame) (r : Z) :
  roll_values (rows_without_roll df r) = filter (fun z => negb (z =? r)) (roll_values df).
Proof.
  unfold roll_values, rows_without_roll.
  induction df as [|x df IH]; simpl; [reflexivity|].
  destruct (roll_no x =? r); simpl; rewrite IH; reflexivity.
Qed.

Lemma roll_in_without (df : DataFrame) (r : Z) :
  roll_in r (rows_without_roll df r) = false.
Proof.
  apply roll_in_false. rewrite roll_values_without, filter_In.
  intros [_ H]. rewrite Z.eqb_refl in H. discriminate.
Qed.

Lemma roll_values_loc_set (df : DataFrame) (r : Z) (f : row -> row) :
  (forall x, roll_no (f x) = roll_no x) ->
  roll_values (loc_set df r f) = roll_values df.
Proof.
  intros Hf. unfold roll_values, loc_set. rewrite map_map.
  apply map_ext. intros x. destruct (roll_no x =? r); auto.
Qed.



(** ** search_student *)

Lemma search_student_found (self : StudentManager) (r : Z) :
  roll_in r (students_df self) = true ->
  search_shows self r
    (StudentFound r (_apply_class_label (rows_with_roll (students_df self) r))).
Proof.
  intros Hin inp rest out Hread. unfold search_student.
  rewrite (bind_Ret _ _ _ _ _ _ Hread).
  destruct (rows_with_roll_cons _ _ Hin) as (x & l & E). rewrite E. reflexivity.
Qed.

Lemma search_student_absent (self : StudentManager) (r : Z) :
  roll_in r (students_df self) = false ->
  search_shows self r (StudentNotFound r).
Proof.
  intros Hin inp rest out Hread. unfold search_student.
  rewrite (bind_Ret _ _ _ _ _ _ Hread).
  apply rows_with_roll_nil in Hin. rewrite Hin. reflexivity.
Qed.

(** ** update_student on a missing roll number *)

(** C5: when the roll number entered matches no row, update_student
    prints the not-found line and returns with the manager (frame and
    storage) exactly as it was, reading nothing further. *)
Theorem update_absent_roll_not_found
  (self : StudentManager) (inp : list string) (r : Z) rest out :
  _get_integer_input None None inp = Ret r rest out ->
  roll_in r (students_df self) = false ->
  update_student self inp = Ret self rest (out ++ [StudentNotFound r]).
Proof.
  intros Hread Habs. unfold update_student.
  rewrite (bind_Ret _ _ _ _ _ _ Hread).
  apply rows_with_roll_nil in Habs. rewrite Habs. reflexivity.
Qed.

Lemma update_absent_roll_not_found_witness :
  update_student (mkManager [] (mkDisk Absent true)) ["99"; "2"; "70"] =
  Ret (mkManager [] (mkDisk Absent true)) ["2"; "70"] [StudentNotFound 99].
Proof.
  apply (update_absent_roll_not_found (mkManager [] (mkDisk Absent true))
           ["99"; "2"; "70"] 99 ["2"; "70"] []).
  - reflexivity.
  - reflexivity.
Defined.

(** ** delete_student *)

(** C7: deleting a roll number that is in the roster completes, removes
    every row with that roll number, and a search for it afterwards prints
    the not-found line. *)
Theorem delete_then_search_absent
  (self : StudentManager) (inp : list string) (r : Z) rest out :
  _get_integer_input None None inp = Ret r rest out ->
  roll_in r (students_df self) = true ->
  exists self',
    delete_student self inp =
      Ret self' rest (out ++ [save_msg (storage self); StudentDeleted r]) /\
    students_df self' = rows_without_roll (students_df self) r /\
    search_shows self' r (StudentNotFound r).
Proof.
  intros Hread Hin. unfold delete_student.
  rewrite (bind_Ret _ _ _ _ _ _ Hread), Hin. cbn [negb].
  rewrite (bind_Ret _ _ _ _ _ _ (_save_data_run _ _)). simpl.
  eexists. split; [reflexivity|]. split; [reflexivity|].
  apply search_student_absent. simpl. apply roll_in_without.
Qed.

Lemma delete_then_search_absent_witness :
  exists self',
    delete_student (mkManager [mkRow 1 (Some "Alice") (Some 90);
                               mkRow 2 (Some "Bob") (Some 40)]
                              (mkDisk Absent true)) ["2"] =
      Ret self' [] [DataSaved; StudentDeleted 2] /\
    students_df self' = [mkRow 1 (Some "Alice") (Some 90)] /\
    search_student self' ["2"] = Ret tt [] [StudentNotFound 2].
Proof.
  destruct (delete_then_search_absent
              (mkManager [mkRow 1 (Some "Alice") (Some 90);
                          mkRow 2 (Some "Bob") (Some 40)]
                         (mkDisk Absent true)) ["2"] 2 [] [])
    as (self' & Hrun & Hdf & Hshow).
  - reflexivity.
  - reflexivity.
  - exists self'. split; [exact Hrun|]. split; [exact Hdf|].
    apply (Hshow ["2"] [] []). reflexivity.
Defined.

(** ** generate_report *)

(** C8: on an empty roster generate_report prints only the empty-roster
    refusal, no statistics; it reads no input and, returning no manager,
    leaves the roster as it was. *)
Theorem report_on_empty_roster (self : StudentManager) (inp : list string) :
  students_df self = [] ->
  generate_report self inp = Ret tt inp [RosterEmptyReport].
Proof. intros Hempty. unfold generate_report. rewrite Hempty. reflexivity. Qed.

Lemma report_on_empty_roster_witness :
  generate_report (mkManager [] (mkDisk Absent true)) ["6"] =
  Ret tt ["6"] [RosterEmptyReport].
Proof.
  apply (report_on_empty_roster (mkManager [] (mkDisk Absent true)) ["6"]).
  reflexivity.
Defined.

Lemma dropna_In (col : list (option Z)) (m : Z) :
  In m (dropna col) <-> In (Some m) col.
Proof.
  unfold dropna. rewrite in_flat_map. split.
  - intros ([m'|] & Hin & Hm); simpl in Hm; [|contradiction].
    destruct Hm as [->|[]]. exact Hin.
  - intros Hin. exists (Some m). split; [exact Hin | left; reflexivity].
Qed.

Lemma fold_left_max_spec (l : list Z) (x : Z) :
  (fold_left Z.max l x = x \/ In (fold_left Z.max l x) l) /\
  x <= fold_left Z.max l x /\
  (forall y, In y l -> y <= fold_left Z.max l x).
Proof.
  revert x. induction l as [|a l IH]; intros x; simpl.
  - split; [auto|]. split; [lia|]. intros y [].
  - destruct (IH (Z.max x a)) as (Hin & Hge & Hall).
    split; [|split].
    + destruct Hin as [Heq|Hin]; [|auto].
      rewrite Heq. destruct (Z.max_spec x a) as [[_ ->]|[_ ->]]; auto.
    + lia.
    + intros y [<-|Hy]; [lia | auto].
Qed.

Lemma series_max_spec (col : list (option Z)) (m : Z) :
  series_max col = Some m <->
  In (Some m) col /\ (forall y, In (Some y) col -> y <= m).
Proof.
  unfold series_max. rewrite <- dropna_In.
  assert (Hall : (forall y, In (Some y) col -> y <= m) <->
                 (forall y, In y (dropna col) -> y <= m)).
  { split; intros H y Hy; apply H, dropna_In, Hy. }
  rewrite Hall. clear Hall.
  destruct (dropna col) as [|x l]; simpl.
  - split; [discriminate | intros [[] _]].
  - destruct (fold_left_max_spec l x) as (Hin & Hge & Hall). split.
    + intros H. injection H as <-. split.
      * destruct Hin as [->|Hin]; auto.
      * intros y [<-|Hy]; auto.
    + intros (Hm & Hmax). f_equal.
      assert (fold_left Z.max l x <= m).
      { apply Hmax. destruct Hin as [->|Hin]; auto. }
      assert (m <= fold_left Z.max l x).
      { destruct Hm as [<-|Hm]; auto. }
      lia.
Qed.

(** C9: on a non-empty roster generate_report prints a report whose
    highest mark is the maximum of the marks present, and whose top
    performers are exactly the roster rows whose marks equal that maximum
    (every tied row included), each with its class label. *)
Theorem report_top_performers (self : StudentManager) (inp : list string) :
  students_df self <> [] ->
  exists rep,
    generate_report self inp = Ret tt inp [PerformanceReport rep] /\
    (forall m, highest rep = Some m <->
       (exists r, In r (students_df self) /\ marks r = Some m) /\
       (forall r' m', In r' (students_df self) -> marks r' = Some m' -> m' <= m)) /\
    (forall r lab,
       In (r, lab) (top_students rep) <->
       In r (students_df self) /\ lab = class_label (marks r) /\
       exists m, marks r = Some m /\
         forall r' m', In r' (students_df self) -> marks r' = Some m' -> m' <= m).
Proof.
  intros Hne. unfold generate_report.
  destruct (students_df self) as [|x0 df0] eqn:Edf; [congruence|].
  set (df := x0 :: df0) in *.
  eexists. split; [reflexivity|]. cbn [highest top_students].
  assert (Hcol : map (fun c : row * string => marks (fst c)) (_apply_class_label df)
                 = map marks df).
  { rewrite _apply_class_label_map, map_map. reflexivity. }
  rewrite Hcol.
  assert (Hmax : forall m, series_max (map marks df) = Some m <->
       (exists r, In r df /\ marks r = Some m) /\
       (forall r' m', In r' df -> marks r' = Some m' -> m' <= m)).
  { intros m. rewrite series_max_spec. split.
    - intros (Hex & Hall). split.
      + apply in_map_iff in Hex as (r & Hm & Hin). eauto.
      + intros r' m' Hin Hm'. apply Hall. rewrite <- Hm'. apply in_map, Hin.
    - intros ((r & Hin & Hm) & Hall). split.
      + rewrite <- Hm. apply in_map, Hin.
      + intros y Hy. apply in_map_iff in Hy as (r' & Hm' & Hin'). eauto. }
  split; [exact Hmax|].
  intros r lab. unfold df at 1. cbn [map]. fold df.
  unfold top_performers.
  rewrite filter_In, _apply_class_label_In. cbn [fst]. split.
  - intros ((Hin & Hlab) & Heq). split; [exact Hin|]. split; [exact Hlab|].
    unfold cell_eq in Heq.
    destruct (marks r) as [m|] eqn:Em; [|discriminate].
    destruct (series_max (map marks df)) as [h|] eqn:Eh; [|discriminate].
    apply Z.eqb_eq in Heq. subst h. exists m. split; [reflexivity|].
    apply (proj1 (Hmax m) eq_refl).
  - intros (Hin & Hlab & m & Em & Hall). split; [auto|].
    assert (Eh : series_max (map marks df) = Some m).
    { apply Hmax. split; eauto. }
    rewrite Eh, Em. simpl. apply Z.eqb_refl.
Qed.

Lemma report_top_performers_witness :
  exists rep,
    generate_report (mkManager [mkRow 1 (Some "Alice") (Some 90);
                                mkRow 2 (Some "Bob") (Some 40);
                                mkRow 3 (Some "Chen") (Some 90)]
                               (mkDisk Absent true)) [] =
      Ret tt [] [PerformanceReport rep] /\
    map fst (top_students rep) =
      [mkRow 1 (Some "Alice") (Some 90); mkRow 3 (Some "Chen") (Some 90)].
Proof.
  destruct (report_top_performers
              (mkManager [mkRow 1 (Some "Alice") (Some 90);
                          mkRow 2 (Some "Bob") (Some 40);
                          mkRow 3 (Some "Chen") (Some 90)]
                         (mkDisk Absent true)) []) as (rep & Hrun & _).
  - discriminate.
  - exists rep. split; [exact Hrun|].
    injection Hrun as <-. reflexivity.
Defined.

(** The report example of the program's documentation. *)
Example report_alice_bob :
  generate_report (mkManager [mkRow 1 (Some "Alice") (Some 90);
                              mkRow 2 (Some "Bob") (Some 40)]
                             (mkDisk Absent true)) [] =
  Ret tt []
    [PerformanceReport
       (mkReport 2 (Some (130 # 2)%Q) (Some 90) (Some 40)
          [("Distinction", 1%nat); ("Third Class", 1%nat)]
          [(mkRow 1 (Some "Alice") (Some 90), "Distinction")])].
Proof. reflexivity. Qed.

(** ** _load_data *)

(** C10: when the sheet is readable, __init__ keeps every stored row in
    order; a row whose roll_no cell is blank is kept with roll_no -1 and
    its other cells as stored.  So a loaded roster can hold a negative
    roll number, and the same roll number twice. *)
Theorem load_blank_roll_is_minus_one (d : disk) (rows : list raw_row) :
  content d = Sheet rows ->
  students_df (fst (init d)) = map fill_roll rows /\
  length (students_df (fst (init d))) = length rows /\
  (forall i raw, nth_error rows i = Some raw -> raw_roll raw = None ->
     nth_error (students_df (fst (init d))) i =
       Some (mkRow (-1) (raw_name raw) (raw_marks raw))) /\
  (forall raw, In raw rows -> raw_roll raw = None ->
     exists x, In x (students_df (fst (init d))) /\ roll_no x < 0) /\
  (forall i j rawi rawj, i <> j ->
     nth_error rows i = Some rawi -> raw_roll rawi = None ->
     nth_error rows j = Some rawj -> raw_roll rawj = None ->
     ~ NoDup (roll_values (students_df (fst (init d))))).
Proof.
  intros Hc. unfold init, _load_data. rewrite Hc. cbn [fst students_df].
  assert (Hnth : forall i raw, nth_error rows i = Some raw -> raw_roll raw = None ->
     nth_error (map fill_roll rows) i =
       Some (mkRow (-1) (raw_name raw) (raw_marks raw))).
  { intros i raw Hi Hblank. rewrite nth_error_map, Hi. simpl.
    unfold fill_roll. rewrite Hblank. reflexivity. }
  split; [reflexivity|]. split; [apply length_map|]. split; [exact Hnth|]. split.
  - intros raw Hin Hblank. apply In_nth_error in Hin as (i & Hi).
    exists (mkRow (-1) (raw_name raw) (raw_marks raw)). split; [|simpl; lia].
    eapply nth_error_In, Hnth; eassumption.
  - intros i j rawi rawj Hij Hi Hbi Hj Hbj Hnd.
    apply Hij, (proj1 (NoDup_nth_error _) Hnd i j).
    + apply nth_error_Some. unfold roll_values.
      rewrite nth_error_map, (Hnth _ _ Hi Hbi). discriminate.
    + unfold roll_values.
      rewrite !nth_error_map, Hi, Hj. simpl. unfold fill_roll.
      rewrite Hbi, Hbj. reflexivity.
Qed.

Lemma load_blank_roll_is_minus_one_witness :
  let d := mkDisk (Sheet [mkRaw None (Some "Asha") (Some 61);
                          mkRaw (Some 2) (Some "Bob") (Some 40);
                          mkRaw None (Some "Chen") None]) true in
  students_df (fst (init d)) =
    [mkRow (-1) (Some "Asha") (Some 61); mkRow 2 (Some "Bob") (Some 40);
     mkRow (-1) (Some "Chen") None] /\
  ~ NoDup (roll_values (students_df (fst (init d)))).
Proof.
  intros d.
  destruct (load_blank_roll_is_minus_one d _ eq_refl) as (Hdf & _ & _ & _ & Hdup).
  split; [exact Hdf|].
  apply (Hdup 0%nat 2%nat (mkRaw None (Some "Asha") (Some 61))
              (mkRaw None (Some "Chen") None)).
  - discriminate.
  - reflexivity.
  - reflexivity.
  - reflexivity.
  - reflexivity.
Defined.

(** ** update_student followed by search_student *)

Lemma Forall2_map_r {A B} (R : A -> B -> Prop) (f : A -> B) (l : list A) :
  (forall a, R a (f a)) -> Forall2 R l (map f l).
Proof. intros HR. induction l; simpl; constructor; auto. Qed.



(** A name update on the same roster. *)
Example update_name_then_search :
  let self := mkManager [mkRow 1 (Some "Alice") (Some 90);
                         mkRow 2 (Some "Bob") (Some 40)] (mkDisk Absent true) in
  exists self',
    update_student self ["2"; "1"; " Robert "] =
      Ret self' [] [CurrentRecord [mkRow 2 (Some "Bob") (Some 40)];
                    NameUpdated; DataSaved] /\
    search_student self' ["2"] =
      Ret tt [] [StudentFound 2 [(mkRow 2 (Some "Robert") (Some 40), "Third Class")]].
Proof. intros self. eexists. split; reflexivity. Qed.

(** ** _get_integer_input and the roll-number loop *)

Lemma _get_integer_input_in_bounds (lo hi : option Z) (inp : list string) :
  forall v rest out,
    _get_integer_input lo hi inp = Ret v rest out ->
    too_low lo v = None /\ too_high hi v = None.
Proof.
  induction inp as [|l inp IH]; simpl; intros v rest out H; [discriminate|].
  assert (Hrec : forall pre, after pre (_get_integer_input lo hi inp) = Ret v rest out ->
                             too_low lo v = None /\ too_high hi v = None).
  { intros pre Hpre. apply after_Ret_inv in Hpre as (out' & Hpre & _). eauto. }
  destruct (py_int l) as [value|]; [|eauto].
  destruct (too_low lo value) eqn:Elo; [eauto|].
  destruct (too_high hi value) eqn:Ehi; [eauto|].
  injection H as <- _ _. auto.
Qed.

Lemma marks_prompt_range (inp : list string) (v : Z) rest out :
  _get_integer_input (Some 0) (Some 100) inp = Ret v rest out -> 0 <= v <= 100.
Proof.
  intros H. apply _get_integer_input_in_bounds in H as [Hlo Hhi].
  simpl in Hlo, Hhi.
  destruct (Z.ltb_spec v 0); [discriminate|].
  destruct (Z.ltb_spec 100 v); [discriminate|]. lia.
Qed.

(** An out-of-range marks entry is refused and the prompt asked again. *)
Lemma marks_prompt_rejects (l : string) (m : Z) (inp : list string) :
  py_int l = Some m -> m < 0 \/ 100 < m ->
  _get_integer_input (Some 0) (Some 100) (l :: inp) =
  after [if m <? 0 then MustBeAtLeast 0 else CannotExceed 100]
        (_get_integer_input (Some 0) (Some 100) inp).
Proof.
  intros Hl Hout. simpl. rewrite Hl.
  destruct (Z.ltb_spec m 0); [reflexivity|].
  destruct (Z.ltb_spec 100 m); [reflexivity | lia].
Qed.

Lemma roll_prompt_accepts (l : string) (r : Z) (inp : list string) :
  py_int l = Some r -> _get_integer_input None None (l :: inp) = Ret r inp [].
Proof. intros Hl. simpl. rewrite Hl. reflexivity. Qed.

(** The loop unfolded once. *)
Lemma add_student_roll_loop_eq (df : DataFrame) (inp : list string) :
  add_student_roll_loop df inp =
  match _get_integer_input None None inp with
  | EOFError out => EOFError out
  | Ret roll rest out =>
      if roll_in roll df
      then after (out ++ [RollExists roll]) (add_student_roll_loop df rest)
      else Ret roll rest out
  end.
Proof.
  apply (add_student_roll_loop_elim
           (fun df inp res =>
              res = match _get_integer_input None None inp with
                    | EOFError out => EOFError out
                    | Ret roll rest out =>
                        if roll_in roll df
                        then after (out ++ [RollExists roll])
                                   (add_student_roll_loop df rest)
                        else Ret roll rest out
                    end)).
  - intros df0 inp0 roll rest out Hread _ _. rewrite Hread. reflexivity.
  - intros df0 inp0 out Hread _. rewrite Hread. reflexivity.
Qed.

(** The integer prompt never prints the duplicate-roll line. *)
Lemma prompt_silent_on_duplicates (lo hi : option Z) (inp : list string) :
  forall v rest out r',
    _get_integer_input lo hi inp = Ret v rest out -> ~ In (RollExists r') out.
Proof.
  induction inp as [|l inp IH]; simpl; intros v rest out r' Hread Hin; [discriminate|].
  assert (Hrec : forall e, e <> RollExists r' ->
            after [e] (_get_integer_input lo hi inp) = Ret v rest out -> False).
  { intros e He Hpre. apply after_Ret_inv in Hpre as (o & Hpre & ->).
    destruct Hin as [Hin|Hin]; [congruence | exact (IH _ _ _ _ Hpre Hin)]. }
  destruct (py_int l) as [value|]; [|eapply Hrec; [|eassumption]; discriminate].
  destruct (too_low lo value) as [e|] eqn:Elo.
  { eapply Hrec; [|eassumption]. unfold too_low in Elo.
    destruct lo as [b|]; [|discriminate].
    destruct (value <? b); [injection Elo as <-|]; discriminate. }
  destruct (too_high hi value) as [e|] eqn:Ehi.
  { eapply Hrec; [|eassumption]. unfold too_high in Ehi.
    destruct hi as [b|]; [|discriminate].
    destruct (b <? value); [injection Ehi as <-|]; discriminate. }
  injection Hread as _ _ <-. contradiction.
Qed.

(** The loop only ever returns a roll number that is not in the roster,
    and every roll number it refused was in the roster. *)
Lemma add_student_roll_loop_fresh (df : DataFrame) (inp : list string) :
  forall r rest out,
    add_student_roll_loop df inp = Ret r rest out ->
    roll_in r df = false /\
    (forall r', In (RollExists r') out -> roll_in r' df = true).
Proof.
  apply (add_student_roll_loop_elim
           (fun df inp res =>
              forall r rest out, res = Ret r rest out ->
                roll_in r df = false /\
                (forall r', In (RollExists r') out -> roll_in r' df = true))).
  - intros df0 inp0 roll rest0 out0 Hread IH _ r rest out H.
    pose proof (fun r' => prompt_silent_on_duplicates _ _ _ _ _ _ r' Hread) as Hsilent.
    destruct (roll_in roll df0) eqn:Edup.
    + apply after_Ret_inv in H as (out' & Hloop & ->).
      destruct (IH _ _ _ Hloop) as [Hfresh Hrefused]. split; [exact Hfresh|].
      intros r' Hr'. rewrite !in_app_iff in Hr'.
      destruct Hr' as [[Hr'|[Hr'|[]]]|Hr']; [| congruence | auto].
      exfalso. eapply Hsilent, Hr'.
    + injection H as <- <- <-. split; [exact Edup|].
      intros r' Hr'. exfalso. eapply Hsilent, Hr'.
  - intros df0 inp0 out0 _ _ r rest out H. discriminate.
Qed.

(** ** add_student *)

Lemma bind_after {A B} (p : list msg) (r : result A) (k : A -> IO B) :
  match after p r with
  | Ret a rest out => after out (k a rest)
  | EOFError out => EOFError out
  end =
  after p match r with
          | Ret a rest out => after out (k a rest)
          | EOFError out => EOFError out
          end.
Proof. destruct r; simpl; [rewrite after_after|]; reflexivity. Qed.

(** A blank name aborts the method before anything else is read. *)
Lemma add_student_blank_name (self : StudentManager) (line : string) rest :
  strip line = "" -> add_student self (line :: rest) = Ret self rest [NameEmpty].
Proof.
  intros Hblank. unfold add_student, bind at 1. simpl. rewrite Hblank. reflexivity.
Qed.

(** With a usable name, the method is the roll loop, the marks prompt,
    the append, the save and the success line. *)
Lemma add_student_named (self : StudentManager) (nm : string) inp :
  strip nm <> "" ->
  add_student self (nm :: inp) =
  (roll <- add_student_roll_loop (students_df self) ;;
   marks <- _get_integer_input (Some 0) (Some 100) ;;
   saved <- _save_data
              (with_df self
                 (concat_row (students_df self)
                    (mkRow roll (Some (strip nm)) (Some marks)))) ;;
   print StudentAdded ;;; ret saved) inp.
Proof.
  intros Hname. apply String.eqb_neq in Hname.
  unfold add_student, bind at 1. simpl. rewrite Hname.
  rewrite after_nil. reflexivity.
Qed.

(** A roll number that is already in the roster is refused with the
    duplicate line and the method carries on as if it had not been typed. *)
Lemma add_student_duplicate_roll (self : StudentManager) (nm l : string) (r : Z) inp :
  strip nm <> "" -> py_int l = Some r -> roll_in r (students_df self) = true ->
  add_student self (nm :: l :: inp) =
  after [RollExists r] (add_student self (nm :: inp)).
Proof.
  intros Hname Hl Hdup. rewrite !add_student_named by exact Hname.
  unfold bind at 1 3.
  rewrite (add_student_roll_loop_eq _ (l :: inp)), (roll_prompt_accepts _ _ _ Hl), Hdup.
  apply bind_after.
Qed.

(** Marks outside [0,100] are refused with a range line and asked again. *)
Lemma add_student_marks_out_of_range
  (self : StudentManager) (nm rl l : string) (r m : Z) inp :
  strip nm <> "" ->
  py_int rl = Some r -> roll_in r (students_df self) = false ->
  py_int l = Some m -> m < 0 \/ 100 < m ->
  add_student self (nm :: rl :: l :: inp) =
  after [if m <? 0 then MustBeAtLeast 0 else CannotExceed 100]
        (add_student self (nm :: rl :: inp)).
Proof.
  intros Hname Hrl Hfresh Hl Hout. rewrite !add_student_named by exact Hname.
  unfold bind at 1 5.
  rewrite !add_student_roll_loop_eq, !(roll_prompt_accepts _ _ _ Hrl), Hfresh.
  rewrite !after_nil. unfold bind at 1 4.
  rewrite (marks_prompt_rejects _ _ _ Hl Hout). apply bind_after.
Qed.

(** What a completed add_student has done. *)
Lemma add_student_Ret_inv (self : StudentManager) inp self' rest out :
  add_student self inp = Ret self' rest out ->
  (self' = self /\ out = [NameEmpty]) \/
  (exists nm r m,
      nm <> "" /\ roll_in r (students_df self) = false /\ 0 <= m <= 100 /\
      students_df self' =
        concat_row (students_df self) (mkRow r (Some nm) (Some m)) /\
      storage self' = saved_storage (storage self) (students_df self') /\
      In StudentAdded out /\
      (forall r', In (RollExists r') out -> roll_in r' (students_df self) = true)).
Proof.
  intros H. destruct inp as [|nm inp]; [discriminate|].
  destruct (String.eqb (strip nm) "") eqn:Ename.
  - apply String.eqb_eq in Ename. rewrite (add_student_blank_name _ _ _ Ename) in H.
    injection H as <- _ <-. left. auto.
  - apply String.eqb_neq in Ename. rewrite (add_student_named _ _ _ Ename) in H.
    apply bind_Ret_inv in H as (r & rest1 & o1 & o2 & Hloop & H & ->).
    apply bind_Ret_inv in H as (m & rest2 & o3 & o4 & Hmarks & H & ->).
    rewrite (bind_Ret _ _ _ _ _ _ (_save_data_run _ _)) in H. simpl in H.
    injection H as <- _ <-.
    apply add_student_roll_loop_fresh in Hloop as [Hfresh Hrefused].
    pose proof (marks_prompt_range _ _ _ _ Hmarks) as Hrange.
    right. exists (strip nm), r, m. simpl.
    repeat (split; [solve [auto] |]). split.
    + rewrite !in_app_iff. simpl. auto.
    + intros r' Hr'. rewrite !in_app_iff in Hr'.
      destruct Hr' as [Hr'|[Hr'|Hr']]; [auto | exfalso | exfalso].
      * exact (prompt_silent_on_duplicates _ _ _ _ _ _ _ Hmarks Hr').
      * unfold save_msg in Hr'.
        destruct (writable (found (storage self))), Hr' as [Hr'|[Hr'|[]]];
          discriminate.
Qed.

(** With a usable name, a roll number not in the roster and marks in
    [0,100], add_student appends the record (name stripped), saves and
    reports success. *)
Lemma add_student_success
  (self : StudentManager) (nm rl ml : string) (r m : Z) (rest : list string) :
  strip nm <> "" ->
  py_int rl = Some r -> roll_in r (students_df self) = false ->
  py_int ml = Some m -> 0 <= m <= 100 ->
  add_student self (nm :: rl :: ml :: rest) =
  Ret (mkManager
         (concat_row (students_df self) (mkRow r (Some (strip nm)) (Some m)))
         (saved_storage (storage self)
            (concat_row (students_df self) (mkRow r (Some (strip nm)) (Some m)))))
      rest [save_msg (storage self); StudentAdded].
Proof.
  intros Hname Hrl Hfresh Hml Hrange.
  rewrite (add_student_named _ _ _ Hname).
  unfold bind at 1.
  rewrite add_student_roll_loop_eq, (roll_prompt_accepts _ _ _ Hrl), Hfresh.
  rewrite after_nil. unfold bind at 1. simpl _get_integer_input. rewrite Hml.
  simpl too_low. simpl too_high.
  destruct (Z.ltb_spec m 0); [lia|]. destruct (Z.ltb_spec 100 m); [lia|].
  rewrite after_nil, (bind_Ret _ _ _ _ _ _ (_save_data_run _ _)). reflexivity.
Qed.

(** The lines a completed prompt skipped, and the line it took. *)
Lemma _get_integer_input_Ret_inv (lo hi : option Z) (inp : list string) :
  forall v rest out,
    _get_integer_input lo hi inp = Ret v rest out ->
    exists skipped l,
      inp = (skipped ++ l :: rest)%list /\
      py_int l = Some v /\ too_low lo v = None /\ too_high hi v = None /\
      (forall s w, In s skipped -> py_int s = Some w ->
                   too_low lo w <> None \/ too_high hi w <> None).
Proof.
  induction inp as [|l inp IH]; simpl; intros v rest out H; [discriminate|].
  assert (Hrec : forall pre,
             (forall w, py_int l = Some w ->
                        too_low lo w <> None \/ too_high hi w <> None) ->
             after pre (_get_integer_input lo hi inp) = Ret v rest out ->
             exists skipped l0,
               l :: inp = (skipped ++ l0 :: rest)%list /\
               py_int l0 = Some v /\ too_low lo v = None /\ too_high hi v = None /\
               (forall s w, In s skipped -> py_int s = Some w ->
                            too_low lo w <> None \/ too_high hi w <> None)).
  { intros pre Hl Hpre. apply after_Ret_inv in Hpre as (o & Hpre & _).
    destruct (IH _ _ _ Hpre) as (skipped & l0 & -> & Hl0 & Hlo & Hhi & Hskip).
    exists (l :: skipped), l0. repeat (split; [solve [auto]|]).
    intros s w [<-|Hs] Hw; [apply Hl, Hw | apply (Hskip _ _ Hs Hw)]. }
  destruct (py_int l) as [value|] eqn:El; [|apply (Hrec _ ltac:(discriminate) H)].
  destruct (too_low lo value) eqn:Elo.
  { apply (Hrec _ ltac:(intros w Hw; injection Hw as <-; left; congruence) H). }
  destruct (too_high hi value) eqn:Ehi.
  { apply (Hrec _ ltac:(intros w Hw; injection Hw as <-; right; congruence) H). }
  injection H as <- <- _. exists [], l. simpl.
  repeat (split; [solve [auto]|]). intros s w [].
Qed.

(** The marks prompt returns the first line that is an integer in [0,100]. *)
Lemma marks_prompt_Ret_inv (inp : list string) (m : Z) rest out :
  _get_integer_input (Some 0) (Some 100) inp = Ret m rest out ->
  exists asked ml,
    inp = (asked ++ ml :: rest)%list /\
    py_int ml = Some m /\ 0 <= m <= 100 /\
    (forall s w, In s asked -> py_int s = Some w -> w < 0 \/ 100 < w).
Proof.
  intros H. pose proof (marks_prompt_range _ _ _ _ H) as Hrange.
  apply _get_integer_input_Ret_inv in H as (asked & ml & -> & Hml & _ & _ & Hskip).
  exists asked, ml. repeat (split; [solve [auto]|]).
  intros s w Hs Hw. specialize (Hskip s w Hs Hw). simpl in Hskip.
  destruct (Z.ltb_spec w 0); [lia|]. destruct (Z.ltb_spec 100 w); [lia|].
  destruct Hskip as [Hc|Hc]; congruence.
Qed.

(** The roll loop returns the first line that is an integer not in the
    roster; every integer it passed over was in the roster. *)
Lemma add_student_roll_loop_Ret_inv (df : DataFrame) (inp : list string) :
  forall r rest out,
    add_student_roll_loop df inp = Ret r rest out ->
    exists refused rl,
      inp = (refused ++ rl :: rest)%list /\
      py_int rl = Some r /\ roll_in r df = false /\
      (forall s w, In s refused -> py_int s = Some w -> roll_in w df = true).
Proof.
  apply (add_student_roll_loop_elim
           (fun df inp res =>
              forall r rest out, res = Ret r rest out ->
                exists refused rl,
                  inp = (refused ++ rl :: rest)%list /\
                  py_int rl = Some r /\ roll_in r df = false /\
                  (forall s w, In s refused -> py_int s = Some w ->
                               roll_in w df = true))).
  - intros df0 inp0 roll rest0 out0 Hread IH _ r rest out H.
    apply _get_integer_input_Ret_inv in Hread
      as (skipped & l & -> & Hl & _ & _ & Hskip).
    assert (Hnone : forall s w, In s skipped -> py_int s = Some w -> False).
    { intros s w Hs Hw. destruct (Hskip s w Hs Hw) as [Hc|Hc]; apply Hc; reflexivity. }
    destruct (roll_in roll df0) eqn:Edup.
    + apply after_Ret_inv in H as (o & H & _).
      destruct (IH _ _ _ H) as (refused & rl & -> & Hrl & Hfresh & Href).
      exists (skipped ++ l :: refused)%list, rl.
      split; [rewrite <- app_assoc; reflexivity|].
      repeat (split; [solve [auto]|]).
      intros s w Hs Hw. apply in_app_iff in Hs as [Hs|[<-|Hs]].
      * destruct (Hnone s w Hs Hw).
      * congruence.
      * apply (Href s w Hs Hw).
    + injection H as <- <- _. exists skipped, l.
      repeat (split; [solve [auto]|]).
      intros s w Hs Hw. destruct (Hnone s w Hs Hw).
  - intros df0 inp0 out0 _ _ r rest out H. discriminate.
Qed.

(** The record a completed add_student has appended, traced to the lines
    that were typed. *)
Lemma add_student_Ret_lines (self : StudentManager) inp self' rest out :
  add_student self inp = Ret self' rest out ->
  exists nm inp1,
    inp = nm :: inp1 /\
    ((strip nm = "" /\ self' = self /\ rest = inp1 /\ out = [NameEmpty]) \/
     (strip nm <> "" /\
      exists refused rl r asked ml m o,
        inp1 = (refused ++ rl :: asked ++ ml :: rest)%list /\
        py_int rl = Some r /\ roll_in r (students_df self) = false /\
        (forall s w, In s refused -> py_int s = Some w ->
                     roll_in w (students_df self) = true) /\
        py_int ml = Some m /\ 0 <= m <= 100 /\
        (forall s w, In s asked -> py_int s = Some w -> w < 0 \/ 100 < w) /\
        students_df self' =
          concat_row (students_df self) (mkRow r (Some (strip nm)) (Some m)) /\
        storage self' = saved_storage (storage self) (students_df self') /\
        out = (o ++ [save_msg (storage self); StudentAdded])%list /\
        (forall r', In (RollExists r') out ->
                    roll_in r' (students_df self) = true))).
Proof.
  intros H. destruct inp as [|nm inp]; [discriminate|].
  exists nm, inp. split; [reflexivity|].
  destruct (String.eqb (strip nm) "") eqn:Ename.
  - apply String.eqb_eq in Ename. rewrite (add_student_blank_name _ _ _ Ename) in H.
    injection H as <- <- <-. left. auto.
  - apply String.eqb_neq in Ename. right. split; [exact Ename|].
    rewrite (add_student_named _ _ _ Ename) in H.
    apply bind_Ret_inv in H as (r & rest1 & o1 & o2 & Hloop & H & ->).
    apply bind_Ret_inv in H as (m & rest2 & o3 & o4 & Hmarks & H & ->).
    rewrite (bind_Ret _ _ _ _ _ _ (_save_data_run _ _)) in H. simpl in H.
    injection H as <- <- <-.
    pose proof (add_student_roll_loop_fresh _ _ _ _ _ Hloop) as [_ Hrefused].
    pose proof (fun r' => prompt_silent_on_duplicates _ _ _ _ _ _ r' Hmarks)
      as Hsilent.
    apply add_student_roll_loop_Ret_inv in Hloop
      as (refused & rl & -> & Hrl & Hfresh & Href).
    apply marks_prompt_Ret_inv in Hmarks as (asked & ml & -> & Hml & Hrange & Hask).
    exists refused, rl, r, asked, ml, m, (o1 ++ o3)%list. simpl.
    split; [reflexivity|]. split; [exact Hrl|]. split; [exact Hfresh|].
    split; [exact Href|]. split; [exact Hml|]. split; [exact Hrange|].
    split; [exact Hask|]. split; [reflexivity|]. split; [reflexivity|].
    split; [apply app_assoc|].
    intros r' Hr'. rewrite !in_app_iff in Hr'.
    destruct Hr' as [Hr'|[Hr'|Hr']]; [auto | destruct (Hsilent _ Hr') |].
    unfold save_msg in Hr'.
    destruct (writable (found (storage self))), Hr' as [Hr'|[Hr'|[]]];
      discriminate.
Qed.

(** C2 (as amended): add_student aborts with the name-empty line, manager
    unchanged, when the stripped name is empty.  A roll number already in
    the roster, and marks outside [0,100], are refused with an error line
    and asked for again, the method carrying on as if the refused line
    had not been typed.  With a non-empty name, a roll number not in the
    roster and marks in [0,100] it appends the record (name stripped),
    saves the frame and prints the success line.  Whenever the method
    completes it has either aborted on the empty first line, or appended
    exactly one record whose name is the stripped first line, whose roll
    number is the first later line that is an integer not in the roster,
    and whose marks are the first line after that which is an integer in
    [0,100]; it has then run _save_data on the new frame, and printed the
    duplicate line only for roll numbers that were in the roster. *)
Theorem add_student_validation (self : StudentManager) :
  (forall line rest,
     strip line = "" ->
     add_student self (line :: rest) = Ret self rest [NameEmpty]) /\
  (forall nm l r inp,
     strip nm <> "" -> py_int l = Some r -> roll_in r (students_df self) = true ->
     add_student self (nm :: l :: inp) =
       after [RollExists r] (add_student self (nm :: inp))) /\
  (forall nm rl l r m inp,
     strip nm <> "" ->
     py_int rl = Some r -> roll_in r (students_df self) = false ->
     py_int l = Some m -> m < 0 \/ 100 < m ->
     add_student self (nm :: rl :: l :: inp) =
       after [if m <? 0 then MustBeAtLeast 0 else CannotExceed 100]
             (add_student self (nm :: rl :: inp))) /\
  (forall nm rl ml r m rest,
     strip nm <> "" ->
     py_int rl = Some r -> roll_in r (students_df self) = false ->
     py_int ml = Some m -> 0 <= m <= 100 ->
     add_student self (nm :: rl :: ml :: rest) =
       Ret (mkManager
              (concat_row (students_df self) (mkRow r (Some (strip nm)) (Some m)))
              (saved_storage (storage self)
                 (concat_row (students_df self)
                    (mkRow r (Some (strip nm)) (Some m)))))
           rest [save_msg (storage self); StudentAdded]) /\
  (forall inp self' rest out,
     add_student self inp = Ret self' rest out ->
     exists nm inp1,
       inp = nm :: inp1 /\
       ((strip nm = "" /\ self' = self /\ rest = inp1 /\ out = [NameEmpty]) \/
        (strip nm <> "" /\
         exists refused rl r asked ml m o,
           inp1 = (refused ++ rl :: asked ++ ml :: rest)%list /\
           py_int rl = Some r /\ roll_in r (students_df self) = false /\
           (forall s w, In s refused -> py_int s = Some w ->
                        roll_in w (students_df self) = true) /\
           py_int ml = Some m /\ 0 <= m <= 100 /\
           (forall s w, In s asked -> py_int s = Some w -> w < 0 \/ 100 < w) /\
           students_df self' =
             concat_row (students_df self) (mkRow r (Some (strip nm)) (Some m)) /\
           storage self' = saved_storage (storage self) (students_df self') /\
           out = (o ++ [save_msg (storage self); StudentAdded])%list /\
           (forall r', In (RollExists r') out ->
                       roll_in r' (students_df self) = true)))).
Proof.
  split; [|split; [|split; [|split]]].
  - intros line rest. apply add_student_blank_name.
  - intros nm l r inp. apply add_student_duplicate_roll.
  - intros nm rl l r m inp. apply add_student_marks_out_of_range.
  - intros nm rl ml r m rest. apply add_student_success.
  - intros inp self' rest out. apply add_student_Ret_lines.
Qed.

Lemma add_student_validation_witness :
  let self := mkManager [mkRow 1 (Some "Alice") (Some 90);
                         mkRow 2 (Some "Bob") (Some 40)] (mkDisk Absent true) in
  add_student self [""; "3"; "50"] = Ret self ["3"; "50"] [NameEmpty] /\
  add_student self ["Carol"; "1"; "3"; "77"] =
    after [RollExists 1] (add_student self ["Carol"; "3"; "77"]) /\
  add_student self ["Carol"; "3"; "101"; "77"] =
    after [CannotExceed 100] (add_student self ["Carol"; "3"; "77"]) /\
  add_student self [" Carol "; "3"; "77"; "6"] =
    Ret (mkManager [mkRow 1 (Some "Alice") (Some 90); mkRow 2 (Some "Bob") (Some 40);
                    mkRow 3 (Some "Carol") (Some 77)]
                   (mkStore (mkDisk Absent true)
                      (Some [mkRow 1 (Some "Alice") (Some 90);
                             mkRow 2 (Some "Bob") (Some 40);
                             mkRow 3 (Some "Carol") (Some 77)])))
        ["6"] [DataSaved; StudentAdded] /\
  (exists nm inp1, ["Carol"; "x"; "2"; "3"; "-4"; "77"] = nm :: inp1 /\ strip nm <> "").
Proof.
  intros self.
  destruct (add_student_validation self) as (Hblank & Hdup & Hmarks & Hok & Hdone).
  split; [|split; [|split; [|split]]].
  - apply (Hblank "" ["3"; "50"]). reflexivity.
  - apply (Hdup "Carol" "1" 1 ["3"; "77"]).
    + discriminate.
    + reflexivity.
    + reflexivity.
  - apply (Hmarks "Carol" "3" "101" 3 101 ["77"]).
    + discriminate.
    + reflexivity.
    + reflexivity.
    + reflexivity.
    + right. lia.
  - apply (Hok " Carol " "3" "77" 3 77 ["6"]).
    + discriminate.
    + reflexivity.
    + reflexivity.
    + reflexivity.
    + lia.
  - destruct (Hdone ["Carol"; "x"; "2"; "3"; "-4"; "77"] _ _ _ eq_refl)
      as (nm & inp1 & Hinp & [(Hnm & _) | (Hnm & _)]).
    + injection Hinp as <- <-. discriminate.
    + exists nm, inp1. split; [exact Hinp | exact Hnm].
Defined.

(** C2 as stated does not hold: roll number 1 is in the roster and is
    entered for the new student, yet add_student does not end in failure
    with the roster unchanged; it asks again and, given 3, appends a
    record and saves. *)
Lemma add_duplicate_roll_is_asked_again :
  let self := mkManager [mkRow 1 (Some "Alice") (Some 90);
                         mkRow 2 (Some "Bob") (Some 40)] (mkDisk Absent true) in
  py_int "1" = Some 1 /\ roll_in 1 (students_df self) = true /\
  exists self',
    add_student self ["Carol"; "1"; "3"; "77"] =
      Ret self' [] [RollExists 1; DataSaved; StudentAdded] /\
    students_df self' =
      [mkRow 1 (Some "Alice") (Some 90); mkRow 2 (Some "Bob") (Some 40);
       mkRow 3 (Some "Carol") (Some 77)] /\
    students_df self' <> students_df self.
Proof.
  intros self. split; [reflexivity|]. split; [reflexivity|].
  eexists. split; [reflexivity|]. split; [reflexivity | discriminate].
Qed.

(** ** Uniqueness of roll numbers *)

Lemma update_student_roll_values (self : StudentManager) inp self' rest out :
  update_student self inp = Ret self' rest out ->
  roll_values (students_df self') = roll_values (students_df self).
Proof.
  unfold update_student. intros H.
  apply bind_Ret_inv in H as (r & rest1 & o1 & o2 & _ & H & _).
  destruct (rows_with_roll (students_df self) r) as [|x l].
  - injection H as <- _ _. reflexivity.
  - apply bind_Ret_inv in H as ([] & rest2 & o3 & o4 & _ & H & _).
    apply bind_Ret_inv in H as (choice & rest3 & o5 & o6 & _ & H & _).
    destruct (String.eqb choice "1").
    + apply bind_Ret_inv in H as (line & rest4 & o7 & o8 & _ & H & _).
      cbv zeta in H. destruct (String.eqb (strip line) "").
      * injection H as <- _ _. reflexivity.
      * rewrite (bind_Ret _ _ _ _ _ _ eq_refl), _save_data_run in H.
        injection H as <- _ _. simpl. apply roll_values_loc_set. reflexivity.
    + destruct (String.eqb choice "2").
      * apply bind_Ret_inv in H as (v & rest4 & o7 & o8 & _ & H & _).
        rewrite (bind_Ret _ _ _ _ _ _ eq_refl), _save_data_run in H.
        injection H as <- _ _. simpl. apply roll_values_loc_set. reflexivity.
      * injection H as <- _ _. reflexivity.
Qed.

Lemma delete_student_Ret_inv (self : StudentManager) inp self' rest out :
  delete_student self inp = Ret self' rest out ->
  self' = self \/
  exists r, students_df self' = rows_without_roll (students_df self) r.
Proof.
  unfold delete_student. intros H.
  apply bind_Ret_inv in H as (r & rest1 & o1 & o2 & _ & H & _).
  destruct (roll_in r (students_df self)); cbn [negb] in H.
  - rewrite (bind_Ret _ _ _ _ _ _ (_save_data_run _ _)) in H.
    injection H as <- _ _. right. exists r. reflexivity.
  - injection H as <- _ _. left. reflexivity.
Qed.

Lemma NoDup_snoc {A} (l : list A) (a : A) :
  NoDup l -> ~ In a l -> NoDup (l ++ [a]).
Proof.
  induction l as [|x l IH]; simpl; intros Hnd Hnot.
  - constructor; [intros [] | constructor].
  - inversion Hnd as [|? ? Hx Hl]; subst. constructor.
    + rewrite in_app_iff. intros [Hin|[->|[]]]; [contradiction|].
      apply Hnot. left. reflexivity.
    + apply IH; [exact Hl|]. intros Hin. apply Hnot. right. exact Hin.
Qed.

Lemma step_keeps_rolls_unique (self self' : StudentManager) :
  step self self' ->
  NoDup (roll_values (students_df self)) ->
  NoDup (roll_values (students_df self')).
Proof.
  intros Hstep Hnd. destruct Hstep as [self inp self' rest out H
                      |self inp self' rest out H
                      |self inp self' rest out H].
  - apply add_student_Ret_inv in H as [[-> _] | (nm & r & m & _ & Hfresh & _ & Hdf & _)];
      [exact Hnd|].
    rewrite Hdf. unfold concat_row, roll_values. rewrite map_app. simpl.
    apply NoDup_snoc; [exact Hnd|]. apply roll_in_false, Hfresh.
  - rewrite (update_student_roll_values _ _ _ _ _ H). exact Hnd.
  - apply delete_student_Ret_inv in H as [-> | (r & ->)]; [exact Hnd|].
    rewrite roll_values_without. apply NoDup_filter, Hnd.
Qed.

(** C3 (as amended): __init__ keeps the rows it reads and does not check
    them, so uniqueness holds after startup only when the loaded rows have
    pairwise distinct roll numbers, as they trivially do when there is no
    readable file and the roster starts empty.  From a start with pairwise
    distinct roll numbers, every state observed after any sequence of
    completed add, update and delete actions has pairwise distinct roll
    numbers. *)
Theorem roll_numbers_stay_unique (d : disk) :
  ((content d = Absent \/ content d = Unreadable) ->
   students_df (fst (init d)) = [] /\
   NoDup (roll_values (students_df (fst (init d))))) /\
  (forall self self',
     step self self' ->
     NoDup (roll_values (students_df self)) ->
     NoDup (roll_values (students_df self'))) /\
  (NoDup (roll_values (students_df (fst (init d)))) ->
   forall self, observable d self -> NoDup (roll_values (students_df self))).
Proof.
  split; [|split].
  - unfold init, _load_data. intros [-> | ->]; split; (reflexivity || constructor).
  - apply step_keeps_rolls_unique.
  - intros Hstart self Hobs. induction Hobs as [|self self' _ IH Hstep].
    + exact Hstart.
    + eapply step_keeps_rolls_unique; eassumption.
Qed.

Lemma roll_numbers_stay_unique_witness :
  let d := mkDisk (Sheet [mkRaw (Some 1) (Some "Alice") (Some 90);
                          mkRaw (Some 2) (Some "Bob") (Some 40)]) true in
  let df' := [mkRow 1 (Some "Alice") (Some 90); mkRow 2 (Some "Bob") (Some 40);
              mkRow 3 (Some "Carol") (Some 77)] in
  let self' := mkManager df' (mkStore d (Some df')) in
  observable d self' /\ NoDup (roll_values (students_df self')) /\
  NoDup (roll_values (students_df (fst (init (mkDisk Absent true))))).
Proof.
  intros d df' self'.
  assert (Hobs : observable d self').
  { apply observable_step with (self := fst (init d)); [constructor|].
    apply step_add with (inp := ["Carol"; "3"; "77"]) (rest := [])
                        (out := [DataSaved; StudentAdded]).
    reflexivity. }
  split; [exact Hobs|]. split.
  - destruct (roll_numbers_stay_unique d) as (_ & _ & Hinv).
    apply Hinv; [|exact Hobs].
    repeat constructor; simpl; intuition discriminate.
  - destruct (roll_numbers_stay_unique (mkDisk Absent true)) as (Hempty & _ & _).
    apply Hempty. left. reflexivity.
Defined.

(** C3 as stated does not hold at startup: a stored sheet with two rows
    of roll number 1 is loaded as it is. *)
Lemma load_keeps_duplicate_rolls :
  let d := mkDisk (Sheet [mkRaw (Some 1) (Some "Alice") (Some 90);
                          mkRaw (Some 1) (Some "Bob") (Some 40)]) true in
  observable d (fst (init d)) /\
  ~ NoDup (roll_values (students_df (fst (init d)))).
Proof.
  intros d. split; [constructor|].
  intros Hnd. inversion Hnd as [|? ? Hnot _]. apply Hnot. left. reflexivity.
Qed.

(* ================================================================== *)
(** * Further properties of the methods *)

(** ** _get_integer_input: which line is taken *)

(** [v] respects the optional bounds of the prompt. *)
Definition within (min_val max_val : option Z) (v : Z) : Prop :=
  (forall lo, min_val = Some lo -> lo <= v) /\
  (forall hi, max_val = Some hi -> v <= hi).

Lemma too_low_none (lo : option Z) (v : Z) :
  too_low lo v = None <-> (forall b, lo = Some b -> b <= v).
Proof.
  unfold too_low. destruct lo as [b|].
  - destruct (Z.ltb_spec v b) as [Hlt|Hge]; split; intros H;
      try discriminate; try reflexivity.
    + specialize (H b eq_refl). lia.
    + intros b' Hb. injection Hb as <-. lia.
  - split; [intros _ b Hb; discriminate | reflexivity].
Qed.

Lemma too_high_none (hi : option Z) (v : Z) :
  too_high hi v = None <-> (forall b, hi = Some b -> v <= b).
Proof.
  unfold too_high. destruct hi as [b|].
  - destruct (Z.ltb_spec b v) as [Hlt|Hge]; split; intros H;
      try discriminate; try reflexivity.
    + specialize (H b eq_refl). lia.
    + intros b' Hb. injection Hb as <-. lia.
  - split; [intros _ b Hb; discriminate | reflexivity].
Qed.

(** One line of the prompt: refused with exactly one complaint, or taken. *)
Lemma _get_integer_input_line (lo hi : option Z) (l : string) (inp : list string) :
  (exists v, py_int l = Some v /\ within lo hi v /\
             _get_integer_input lo hi (l :: inp) = Ret v inp []) \/
  ((forall v, py_int l = Some v -> ~ within lo hi v) /\
   exists complaint,
     _get_integer_input lo hi (l :: inp) =
     after [complaint] (_get_integer_input lo hi inp)).
Proof.
  simpl. destruct (py_int l) as [v|].
  - destruct (too_low lo v) as [c|] eqn:Elo.
    { right. split; [|eauto]. intros v' Hv' [Hlo _]. injection Hv' as <-.
      apply too_low_none in Hlo. congruence. }
    destruct (too_high hi v) as [c|] eqn:Ehi.
    { right. split; [|eauto]. intros v' Hv' [_ Hhi]. injection Hv' as <-.
      apply too_high_none in Hhi. congruence. }
    left. exists v. split; [reflexivity|]. split; [|reflexivity].
    split; [apply too_low_none, Elo | apply too_high_none, Ehi].
  - right. split; [discriminate | eauto].
Qed.

(** X1: when the prompt returns, it has skipped a run of lines none of
    which is an integer within the bounds, printing one complaint for each,
    and returned the first line that is such an integer, leaving exactly
    the lines after it. *)
Theorem prompt_takes_first_valid_line
  (lo hi : option Z) (inp : list string) (v : Z) rest out :
  _get_integer_input lo hi inp = Ret v rest out ->
  exists skipped l,
    inp = (skipped ++ l :: rest)%list /\
    py_int l = Some v /\ within lo hi v /\
    (forall s w, In s skipped -> py_int s = Some w -> ~ within lo hi w) /\
    length out = length skipped.
Proof.
  revert out. induction inp as [|l inp IH]; intros out H; [discriminate|].
  destruct (_get_integer_input_line lo hi l inp)
    as [(v' & Hl & Hin & Hrun) | (Hbad & c & Hrun)]; rewrite Hrun in H.
  - injection H as <- <- <-. exists [], l. simpl.
    split; [reflexivity|]. split; [exact Hl|]. split; [exact Hin|].
    split; [intros s w [] | reflexivity].
  - apply after_Ret_inv in H as (out' & H & ->).
    destruct (IH _ H) as (skipped & l' & -> & Hl' & Hin & Hskip & Hlen).
    exists (l :: skipped), l'. simpl.
    split; [reflexivity|]. split; [exact Hl'|]. split; [exact Hin|].
    split; [|rewrite Hlen; reflexivity].
    intros s w [<-|Hs] Hw; [apply (Hbad _ Hw) | apply (Hskip _ _ Hs Hw)].
Qed.

Lemma prompt_takes_first_valid_line_witness :
  exists skipped l,
    ["abc"; "150"; "-3"; " 42 "; "7"] = (skipped ++ l :: ["7"])%list /\
    py_int l = Some 42 /\ within (Some 0) (Some 100) 42 /\
    (forall s w, In s skipped -> py_int s = Some w ->
                 ~ within (Some 0) (Some 100) w) /\
    length [NotWholeNumber; CannotExceed 100; MustBeAtLeast 0] = length skipped.
Proof.
  apply (prompt_takes_first_valid_line (Some 0) (Some 100)
           ["abc"; "150"; "-3"; " 42 "; "7"] 42 ["7"]
           [NotWholeNumber; CannotExceed 100; MustBeAtLeast 0]).
  reflexivity.
Defined.

Lemma prompt_eof_iff (lo hi : option Z) (inp : list string) :
  (exists out, _get_integer_input lo hi inp = EOFError out) <->
  (forall s w, In s inp -> py_int s = Some w -> ~ within lo hi w).
Proof.
  induction inp as [|l inp IH].
  - split; [intros _ s w [] | intros _; exists []; reflexivity].
  - destruct (_get_integer_input_line lo hi l inp)
      as [(v & Hl & Hin & Hrun) | (Hbad & c & Hrun)]; rewrite Hrun.
    + split; [intros (out & H); discriminate|].
      intros Hall. exfalso. apply (Hall l v); [left; reflexivity | exact Hl | exact Hin].
    + split.
      * intros (out & H) s w [<-|Hs] Hw; [apply (Hbad _ Hw)|].
        destruct (_get_integer_input lo hi inp) as [? ? ?|out'] eqn:E; [discriminate|].
        apply (proj1 IH (ex_intro _ out' eq_refl) s w Hs Hw).
      * intros Hall.
        destruct (proj2 IH) as (out' & ->).
        { intros s w Hs. apply Hall. right. exact Hs. }
        exists (c :: out'). reflexivity.
Qed.

Lemma prompt_eof_length (lo hi : option Z) (inp : list string) (out : list msg) :
  _get_integer_input lo hi inp = EOFError out -> length out = length inp.
Proof.
  revert out. induction inp as [|l inp IH]; simpl; intros out H.
  - injection H as <-. reflexivity.
  - assert (Hrec : forall c, after [c] (_get_integer_input lo hi inp) = EOFError out ->
                             length out = S (length inp)).
    { intros c Hc. destruct (_get_integer_input lo hi inp); [discriminate|].
      injection Hc as <-. simpl. f_equal. apply IH. reflexivity. }
    destruct (py_int l) as [v|]; [|eauto].
    destruct (too_low lo v); [eauto|].
    destruct (too_high hi v); [eauto | discriminate].
Qed.

(** X2: the prompt ends in EOFError exactly when no pending line is an
    integer within the bounds; it has then read every line and printed one
    complaint for each. *)
Theorem prompt_eof_when_no_valid_line (lo hi : option Z) (inp : list string) :
  ((forall s w, In s inp -> py_int s = Some w -> ~ within lo hi w) ->
   exists out, _get_integer_input lo hi inp = EOFError out) /\
  (forall out,
     _get_integer_input lo hi inp = EOFError out ->
     length out = length inp /\
     (forall s w, In s inp -> py_int s = Some w -> ~ within lo hi w)).
Proof.
  split.
  - apply prompt_eof_iff.
  - intros out H. split; [apply (prompt_eof_length _ _ _ _ H)|].
    apply prompt_eof_iff. eauto.
Qed.

Lemma prompt_eof_when_no_valid_line_witness :
  exists out, _get_integer_input (Some 0) (Some 100) ["x"; "101"] = EOFError out.
Proof.
  apply (proj1 (prompt_eof_when_no_valid_line (Some 0) (Some 100) ["x"; "101"])).
  intros s w [<-|[<-|[]]] Hw [Hlo Hhi].
  - discriminate.
  - injection Hw as <-. specialize (Hhi 100 eq_refl). lia.
Defined.

(** ** delete_student: the missing roll number and the frame *)

(** X3: when the roll number entered is not in the roster, delete_student
    prints the not-found line and returns with roster and storage exactly
    as they were; nothing is saved. *)
Theorem delete_absent_roll_not_found
  (self : StudentManager) (inp : list string) (r : Z) rest out :
  _get_integer_input None None inp = Ret r rest out ->
  roll_in r (students_df self) = false ->
  delete_student self inp = Ret self rest (out ++ [StudentNotFound r]).
Proof.
  intros Hread Habs. unfold delete_student.
  rewrite (bind_Ret _ _ _ _ _ _ Hread), Habs. reflexivity.
Qed.

Lemma delete_absent_roll_not_found_witness :
  let self := mkManager [mkRow 1 (Some "Alice") (Some 90)] (mkDisk Absent true) in
  delete_student self ["x"; "5"; "1"] =
  Ret self ["1"] [NotWholeNumber; StudentNotFound 5].
Proof.
  intros self.
  apply (delete_absent_roll_not_found self ["x"; "5"; "1"] 5 ["1"] [NotWholeNumber]).
  - reflexivity.
  - reflexivity.
Defined.





(** ** update_student: cancelled updates and what an update may write *)

(** X5: for a roll number in the roster, an update is abandoned with the
    manager untouched and nothing saved when the new name is blank
    (choice 1) or when the choice is neither 1 nor 2. *)
Theorem update_cancelled_changes_nothing
  (self : StudentManager) (inp : list string) (r : Z) inp1 out1 :
  _get_integer_input None None inp = Ret r inp1 out1 ->
  roll_in r (students_df self) = true ->
  (forall line rest,
     inp1 = "1" :: line :: rest -> strip line = "" ->
     update_student self inp =
       Ret self rest
           (out1 ++ [CurrentRecord (rows_with_roll (students_df self) r);
                     NameUpdateCancelled])) /\
  (forall choice rest,
     inp1 = choice :: rest -> choice <> "1" -> choice <> "2" ->
     update_student self inp =
       Ret self rest
           (out1 ++ [CurrentRecord (rows_with_roll (students_df self) r);
                     InvalidChoice])).
Proof.
  intros Hread Hin. destruct (rows_with_roll_cons _ _ Hin) as (x & l & E).
  split.
  - intros line rest -> Hblank. unfold update_student.
    rewrite (bind_Ret _ _ _ _ _ _ Hread), E.
    unfold bind, print, input. simpl. rewrite Hblank. reflexivity.
  - intros choice rest -> H1 H2.
    apply String.eqb_neq in H1, H2. unfold update_student.
    rewrite (bind_Ret _ _ _ _ _ _ Hread), E.
    unfold bind, print, input. simpl. rewrite H1, H2. reflexivity.
Qed.

Lemma update_cancelled_changes_nothing_witness :
  let bob := mkRow 2 (Some "Bob") (Some 40) in
  let self := mkManager [bob] (mkDisk Absent true) in
  update_student self ["2"; "1"; "   "; "9"] =
    Ret self ["9"] [CurrentRecord [bob]; NameUpdateCancelled] /\
  update_student self ["2"; " 1"; "9"] =
    Ret self ["9"] [CurrentRecord [bob]; InvalidChoice].
Proof.
  intros bob self. split.
  - apply (proj1 (update_cancelled_changes_nothing self ["2"; "1"; "   "; "9"] 2
                    ["1"; "   "; "9"] [] eq_refl eq_refl) "   " ["9"]);
      reflexivity.
  - apply (proj2 (update_cancelled_changes_nothing self ["2"; " 1"; "9"] 2
                    [" 1"; "9"] [] eq_refl eq_refl) " 1" ["9"]).
    + reflexivity.
    + discriminate.
    + discriminate.
Defined.

(** What a completed update_student has done. *)
Lemma update_student_Ret_inv (self : StudentManager) inp self' rest out :
  update_student self inp = Ret self' rest out ->
  self' = self \/
  exists r f,
    roll_in r (students_df self) = true /\
    ((exists v, v <> "" /\ f = set_name v) \/
     (exists v, 0 <= v <= 100 /\ f = set_marks v)) /\
    self' = mkManager (loc_set (students_df self) r f)
                      (saved_storage (storage self)
                         (loc_set (students_df self) r f)).
Proof.
  unfold update_student. intros H.
  apply bind_Ret_inv in H as (r & rest1 & o1 & o2 & _ & H & _).
  destruct (rows_with_roll (students_df self) r) as [|x l] eqn:E.
  - injection H as <- _ _. left. reflexivity.
  - assert (Hin : roll_in r (students_df self) = true).
    { destruct (roll_in r (students_df self)) eqn:Er; [reflexivity|].
      apply rows_with_roll_nil in Er. congruence. }
    apply bind_Ret_inv in H as ([] & rest2 & o3 & o4 & _ & H & _).
    apply bind_Ret_inv in H as (choice & rest3 & o5 & o6 & _ & H & _).
    destruct (String.eqb choice "1").
    + apply bind_Ret_inv in H as (line & rest4 & o7 & o8 & _ & H & _).
      cbv zeta in H. destruct (String.eqb (strip line) "") eqn:Eline.
      * injection H as <- _ _. left. reflexivity.
      * rewrite (bind_Ret _ _ _ _ _ _ eq_refl), _save_data_run in H.
        injection H as <- _ _. right.
        exists r, (set_name (strip line)). split; [exact Hin|].
        split; [|reflexivity]. left. exists (strip line).
        split; [apply String.eqb_neq, Eline | reflexivity].
    + destruct (String.eqb choice "2").
      * apply bind_Ret_inv in H as (v & rest4 & o7 & o8 & Hv & H & _).
        rewrite (bind_Ret _ _ _ _ _ _ eq_refl), _save_data_run in H.
        injection H as <- _ _. right.
        exists r, (set_marks v). split; [exact Hin|].
        split; [|reflexivity]. right. exists v.
        split; [apply (marks_prompt_range _ _ _ _ Hv) | reflexivity].
      * injection H as <- _ _. left. reflexivity.
Qed.

Lemma Forall2_refl {A} (R : A -> A -> Prop) (l : list A) :
  (forall a, R a a) -> Forall2 R l l.
Proof. intros HR. induction l; constructor; auto. Qed.

(** X6: whatever is typed, a completed update_student leaves the roll_no
    column as it was and changes rows only by writing a non-empty name or
    marks within [0,100]: row by row, the roster after is the roster
    before with such a field written, or the same row. *)
Theorem update_writes_only_valid_fields
  (self : StudentManager) (inp : list string) self' rest out :
  update_student self inp = Ret self' rest out ->
  roll_values (students_df self') = roll_values (students_df self) /\
  Forall2 (fun old new =>
             new = old \/
             (exists v, v <> "" /\ new = set_name v old) \/
             (exists v, 0 <= v <= 100 /\ new = set_marks v old))
          (students_df self) (students_df self').
Proof.
  intros H. apply update_student_Ret_inv in H as [-> | (r & f & _ & Hf & ->)].
  - split; [reflexivity|]. apply Forall2_refl. auto.
  - simpl. split.
    + apply roll_values_loc_set.
      destruct Hf as [(v & _ & ->) | (v & _ & ->)]; reflexivity.
    + unfold loc_set. apply Forall2_map_r. intros a.
      destruct (roll_no a =? r); [|auto].
      destruct Hf as [(v & Hv & ->) | (v & Hv & ->)]; eauto.
Qed.

Lemma update_writes_only_valid_fields_witness :
  let self := mkManager [mkRow 1 (Some "Alice") (Some 90);
                         mkRow 2 (Some "Bob") (Some 40)] (mkDisk Absent true) in
  exists self',
    update_student self ["2"; "2"; "250"; "-1"; "71"] =
      Ret self' [] [CurrentRecord [mkRow 2 (Some "Bob") (Some 40)];
                    CannotExceed 100; MustBeAtLeast 0; MarksUpdated; DataSaved] /\
    roll_values (students_df self') = [1; 2].
Proof.
  intros self. eexists. split; [reflexivity|].
  apply (update_writes_only_valid_fields self ["2"; "2"; "250"; "-1"; "71"]
           _ [] _ eq_refl).
Defined.

(** ** add_student: the success path, and add followed by search or delete *)

Lemma rows_with_roll_concat_fresh (df : DataFrame) (x : row) :
  roll_in (roll_no x) df = false ->
  rows_with_roll (concat_row df x) (roll_no x) = [x].
Proof.
  intros Hfresh. unfold rows_with_roll, concat_row. rewrite filter_app.
  fold (rows_with_roll df (roll_no x)).
  rewrite (proj2 (rows_with_roll_nil _ _) Hfresh). simpl.
  rewrite Z.eqb_refl. reflexivity.
Qed.

Lemma rows_without_roll_concat_fresh (df : DataFrame) (x : row) :
  roll_in (roll_no x) df = false ->
  rows_without_roll (concat_row df x) (roll_no x) = df.
Proof.
  intros Hfresh. unfold rows_without_roll, concat_row. rewrite filter_app. simpl.
  rewrite Z.eqb_refl. simpl. rewrite app_nil_r.
  apply roll_in_false in Hfresh. unfold roll_values in Hfresh.
  induction df as [|y df IH]; simpl; [reflexivity|].
  destruct (roll_no y =? roll_no x) eqn:E; simpl.
  - exfalso. apply Hfresh. left. apply Z.eqb_eq, E.
  - f_equal. apply IH. intros Hin. apply Hfresh. right. exact Hin.
Qed.

(** X7: after a successful add_student, search_student on the new roll
    number shows exactly the record just added (name stripped of
    surrounding blanks) with its class label. *)
Theorem add_then_search_finds_record
  (self : StudentManager) (nm rl ml : string) (r m : Z) (rest : list string) :
  strip nm <> "" ->
  py_int rl = Some r -> roll_in r (students_df self) = false ->
  py_int ml = Some m -> 0 <= m <= 100 ->
  exists self',
    add_student self (nm :: rl :: ml :: rest) =
      Ret self' rest [save_msg (storage self); StudentAdded] /\
    search_shows self' r
      (StudentFound r [(mkRow r (Some (strip nm)) (Some m),
                        class_label (Some m))]).
Proof.
  intros Hname Hrl Hfresh Hml Hrange.
  eexists. split; [apply add_student_success; eassumption|].
  intros inp rest' out Hread. unfold search_student.
  rewrite (bind_Ret _ _ _ _ _ _ Hread). cbn [students_df].
  rewrite (rows_with_roll_concat_fresh _ (mkRow r _ _) Hfresh). reflexivity.
Qed.

Lemma add_then_search_finds_record_witness :
  let self := mkManager [mkRow 1 (Some "Alice") (Some 90)] (mkDisk Absent true) in
  exists self',
    add_student self ["  Dev  "; "8"; "59"] = Ret self' [] [DataSaved; StudentAdded] /\
    search_student self' ["8"] =
      Ret tt [] [StudentFound 8 [(mkRow 8 (Some "Dev") (Some 59), "Second Class")]].
Proof.
  intros self.
  destruct (add_then_search_finds_record self "  Dev  " "8" "59" 8 59 [])
    as (self' & Hrun & Hshow).
  - discriminate.
  - reflexivity.
  - reflexivity.
  - reflexivity.
  - lia.
  - exists self'. split; [exact Hrun|]. apply (Hshow ["8"] [] []). reflexivity.
Defined.

(** X8: deleting the roll number of a record that was just added gives
    back the roster as it was before the add. *)
Theorem add_then_delete_restores_roster
  (self : StudentManager) (nm rl ml : string) (r m : Z) (rest : list string) :
  strip nm <> "" ->
  py_int rl = Some r -> roll_in r (students_df self) = false ->
  py_int ml = Some m -> 0 <= m <= 100 ->
  exists self',
    add_student self (nm :: rl :: ml :: rest) =
      Ret self' rest [save_msg (storage self); StudentAdded] /\
    forall inp rest' out,
      _get_integer_input None None inp = Ret r rest' out ->
      exists self'',
        delete_student self' inp =
          Ret self'' rest' (out ++ [save_msg (storage self'); StudentDeleted r]) /\
        students_df self'' = students_df self.
Proof.
  intros Hname Hrl Hfresh Hml Hrange.
  eexists. split; [apply add_student_success; eassumption|].
  intros inp rest' out Hread. unfold delete_student.
  rewrite (bind_Ret _ _ _ _ _ _ Hread). cbn [students_df].
  assert (Hin : roll_in r (concat_row (students_df self)
                             (mkRow r (Some (strip nm)) (Some m))) = true).
  { apply roll_in_true. unfold roll_values, concat_row. rewrite map_app.
    apply in_or_app. right. left. reflexivity. }
  rewrite Hin. cbn [negb].
  rewrite (bind_Ret _ _ _ _ _ _ (_save_data_run _ _)).
  eexists. split; [reflexivity|]. simpl.
  apply (rows_without_roll_concat_fresh _ (mkRow r _ _) Hfresh).
Qed.

Lemma add_then_delete_restores_roster_witness :
  let self := mkManager [mkRow 1 (Some "Alice") (Some 90)] (mkDisk Absent true) in
  exists self' self'',
    add_student self ["Dev"; "8"; "59"] = Ret self' [] [DataSaved; StudentAdded] /\
    delete_student self' ["8"] = Ret self'' [] [DataSaved; StudentDeleted 8] /\
    students_df self'' = students_df self.
Proof.
  intros self.
  destruct (add_then_delete_restores_roster self "Dev" "8" "59" 8 59 [])
    as (self' & Hrun & Hdel).
  - discriminate.
  - reflexivity.
  - reflexivity.
  - reflexivity.
  - lia.
  - destruct (Hdel ["8"] [] [] eq_refl) as (self'' & Hrun' & Hdf).
    exists self', self''. split; [exact Hrun|]. split; [|exact Hdf].
    injection Hrun as <-. exact Hrun'.
Defined.

(** ** Storage: failed saves, and what the file holds *)

(** X9: when storage cannot be written, a valid add_student still appends
    the record in memory and still prints the success line after the save
    error, and storage is left exactly as it was. *)
Theorem add_with_failed_save_keeps_record
  (self : StudentManager) (nm rl ml : string) (r m : Z) (rest : list string) :
  writable (found (storage self)) = false ->
  strip nm <> "" ->
  py_int rl = Some r -> roll_in r (students_df self) = false ->
  py_int ml = Some m -> 0 <= m <= 100 ->
  add_student self (nm :: rl :: ml :: rest) =
  Ret (mkManager
         (concat_row (students_df self) (mkRow r (Some (strip nm)) (Some m)))
         (storage self))
      rest [SaveError; StudentAdded].
Proof.
  intros Hw Hname Hrl Hfresh Hml Hrange.
  rewrite (add_student_success _ _ _ _ _ _ _ Hname Hrl Hfresh Hml Hrange).
  unfold saved_storage, save_msg. rewrite Hw. reflexivity.
Qed.

Lemma add_with_failed_save_keeps_record_witness :
  let d := mkDisk (Sheet [mkRaw (Some 1) (Some "Alice") (Some 90)]) false in
  add_student (fst (init d)) ["Dev"; "8"; "59"] =
  Ret (mkManager [mkRow 1 (Some "Alice") (Some 90); mkRow 8 (Some "Dev") (Some 59)] d)
      [] [SaveError; StudentAdded].
Proof.
  intros d.
  apply (add_with_failed_save_keeps_record (fst (init d)) "Dev" "8" "59" 8 59 []).
  - reflexivity.
  - discriminate.
  - reflexivity.
  - reflexivity.
  - reflexivity.
  - lia.
Defined.





(** ** generate_report: lowest mark, mean and class summary *)

Lemma fold_left_min_spec (l : list Z) (x : Z) :
  (fold_left Z.min l x = x \/ In (fold_left Z.min l x) l) /\
  fold_left Z.min l x <= x /\
  (forall y, In y l -> fold_left Z.min l x <= y).
Proof.
  revert x. induction l as [|a l IH]; intros x; simpl.
  - split; [auto|]. split; [lia|]. intros y [].
  - destruct (IH (Z.min x a)) as (Hin & Hle & Hall).
    split; [|split].
    + destruct Hin as [Heq|Hin]; [|auto].
      rewrite Heq. destruct (Z.min_spec x a) as [[_ ->]|[_ ->]]; auto.
    + lia.
    + intros y [<-|Hy]; [lia | auto].
Qed.

Lemma series_min_spec (col : list (option Z)) (m : Z) :
  series_min col = Some m <->
  In (Some m) col /\ (forall y, In (Some y) col -> m <= y).
Proof.
  unfold series_min. rewrite <- dropna_In.
  assert (Hall : (forall y, In (Some y) col -> m <= y) <->
                 (forall y, In y (dropna col) -> m <= y)).
  { split; intros H y Hy; apply H, dropna_In, Hy. }
  rewrite Hall. clear Hall.
  destruct (dropna col) as [|x l]; simpl.
  - split; [discriminate | intros [[] _]].
  - destruct (fold_left_min_spec l x) as (Hin & Hle & Hall). split.
    + intros H. injection H as <-. split.
      * destruct Hin as [->|Hin]; auto.
      * intros y [<-|Hy]; auto.
    + intros (Hm & Hmin). f_equal.
      assert (m <= fold_left Z.min l x).
      { apply Hmin. destruct Hin as [->|Hin]; auto. }
      assert (fold_left Z.min l x <= m).
      { destruct Hm as [<-|Hm]; auto. }
      lia.
Qed.

Lemma fold_left_add_bounds (l : list Z) (lo hi acc : Z) :
  (forall y, In y l -> lo <= y <= hi) ->
  acc + Z.of_nat (length l) * lo <= fold_left Z.add l acc
                                 <= acc + Z.of_nat (length l) * hi.
Proof.
  revert acc. induction l as [|a l IH]; intros acc Hall.
  - simpl. lia.
  - cbn [fold_left length]. rewrite Nat2Z.inj_succ.
    assert (Ha : lo <= a <= hi) by (apply Hall; left; reflexivity).
    assert (Hl : forall y, In y l -> lo <= y <= hi) by (intros y Hy; apply Hall; right; exact Hy).
    specialize (IH (acc + a) Hl). nia.
Qed.

(** The report printed for a roster that is not empty. *)
Lemma generate_report_run (self : StudentManager) (inp : list string) :
  students_df self <> [] ->
  exists rep,
    generate_report self inp = Ret tt inp [PerformanceReport rep] /\
    total rep = length (students_df self) /\
    mean rep = series_mean (map marks (students_df self)) /\
    highest rep = series_max (map marks (students_df self)) /\
    lowest rep = series_min (map marks (students_df self)) /\
    class_counts rep = value_counts_sorted (_apply_class_label (students_df self)).
Proof.
  intros Hne. unfold generate_report.
  destruct (students_df self) as [|x0 df0] eqn:Edf; [congruence|].
  set (df := x0 :: df0) in *.
  assert (Hcol : map (fun c : row * string => marks (fst c)) (_apply_class_label df)
                 = map marks df).
  { rewrite _apply_class_label_map, map_map. reflexivity. }
  eexists. split; [reflexivity|]. cbn [total mean highest lowest class_counts].
  rewrite Hcol, _apply_class_label_map, length_map. repeat split; reflexivity.
Qed.

(** X12: on a non-empty roster the report counts every row, its lowest
    mark is the minimum of the marks present, and when some mark is
    present the mean lies between the lowest and the highest mark. *)
Theorem report_lowest_and_mean (self : StudentManager) (inp : list string) :
  students_df self <> [] ->
  exists rep,
    generate_report self inp = Ret tt inp [PerformanceReport rep] /\
    total rep = length (students_df self) /\
    (forall m, lowest rep = Some m <->
       (exists r, In r (students_df self) /\ marks r = Some m) /\
       (forall r' m', In r' (students_df self) -> marks r' = Some m' -> m <= m')) /\
    ((exists r m, In r (students_df self) /\ marks r = Some m) ->
     exists lo hi q,
       lowest rep = Some lo /\ highest rep = Some hi /\ mean rep = Some q /\
       (inject_Z lo <= q)%Q /\ (q <= inject_Z hi)%Q).
Proof.
  intros Hne.
  destruct (generate_report_run self inp Hne)
    as (rep & Hrun & Htotal & Hmean & Hhigh & Hlow & _).
  exists rep. split; [exact Hrun|]. split; [exact Htotal|].
  set (df := students_df self) in *. split.
  - intros m. rewrite Hlow, series_min_spec. split.
    + intros (Hex & Hall). split.
      * apply in_map_iff in Hex as (r & Hm & Hin). eauto.
      * intros r' m' Hin Hm'. apply Hall. rewrite <- Hm'. apply in_map, Hin.
    + intros ((r & Hin & Hm) & Hall). split.
      * rewrite <- Hm. apply in_map, Hin.
      * intros y Hy. apply in_map_iff in Hy as (r' & Hm' & Hin'). eauto.
  - intros (r & m & Hin & Hm).
    assert (Hpresent : In m (dropna (map marks df))).
    { apply dropna_In. rewrite <- Hm. apply in_map, Hin. }
    rewrite Hlow, Hhigh, Hmean. unfold series_min, series_max, series_mean.
    destruct (dropna (map marks df)) as [|x l] eqn:E; [contradiction|].
    destruct (fold_left_min_spec l x) as (_ & Hminx & Hmin).
    destruct (fold_left_max_spec l x) as (_ & Hmaxx & Hmax).
    set (lo := fold_left Z.min l x) in *. set (hi := fold_left Z.max l x) in *.
    assert (Hall : forall y, In y (x :: l) -> lo <= y <= hi).
    { intros y [<-|Hy]; [lia|]. split; [apply Hmin | apply Hmax]; exact Hy. }
    pose proof (fold_left_add_bounds (x :: l) lo hi 0 Hall) as Hsum.
    exists lo, hi. eexists. repeat (split; [reflexivity|]).
    cbn [length] in *. rewrite Nat2Z.inj_succ in *.
    set (s := fold_left Z.add (x :: l) 0) in *.
    destruct (Z.succ (Z.of_nat (length l))) as [|p|p] eqn:En; try lia.
    unfold Qle, Qdiv, Qmult, Qinv, inject_Z. simpl. lia.
Qed.

Lemma report_lowest_and_mean_witness :
  exists rep,
    generate_report (mkManager [mkRow 1 (Some "Alice") (Some 90);
                                mkRow 2 (Some "Bob") (Some 40);
                                mkRow (-1) None None]
                               (mkDisk Absent true)) [] =
      Ret tt [] [PerformanceReport rep] /\
    total rep = 3%nat /\ lowest rep = Some 40 /\
    exists q, mean rep = Some q /\ (inject_Z 40 <= q)%Q /\ (q <= inject_Z 90)%Q.
Proof.
  destruct (report_lowest_and_mean
              (mkManager [mkRow 1 (Some "Alice") (Some 90);
                          mkRow 2 (Some "Bob") (Some 40);
                          mkRow (-1) None None]
                         (mkDisk Absent true)) [])
    as (rep & Hrun & Htotal & _ & Hmean).
  - discriminate.
  - exists rep. split; [exact Hrun|]. split; [exact Htotal|].
    destruct Hmean as (lo & hi & q & Hlo & Hhi & Hq & Hle1 & Hle2).
    + exists (mkRow 1 (Some "Alice") (Some 90)), 90. split; [left|]; reflexivity.
    + injection Hrun as <-. split; [reflexivity|].
      injection Hlo as <-. injection Hhi as <-. eauto.
Defined.

(** Every class cell is one of the five band labels, never 'nan'. *)
Lemma class_label_is_band (m : option Z) : In (class_label m) labels.
Proof.
  destruct m as [x|]; [|simpl; auto].
  unfold class_label, cut_cell, bins, labels, cut.
  repeat match goal with
         | |- context [(?a <=? ?b)] => destruct (Z.leb_spec a b); simpl
         | |- context [(?a <? ?b)] => destruct (Z.ltb_spec a b); simpl
         end; auto 6.
Qed.

Lemma count_label_rows (lab : string) (df : DataFrame) :
  count_label lab (_apply_class_label df) =
  length (filter (fun r => String.eqb (class_label (marks r)) lab) df).
Proof.
  rewrite _apply_class_label_map. unfold count_label.
  induction df as [|x df IH]; simpl; [reflexivity|].
  destruct (String.eqb (class_label (marks x)) lab); simpl; rewrite IH; reflexivity.
Qed.

Lemma list_sum_nonzero (l : list (string * nat)) :
  list_sum (map snd (filter (fun p => negb (Nat.eqb (snd p) 0)) l)) =
  list_sum (map snd l).
Proof.
  induction l as [|[lab n] l IH]; simpl; [reflexivity|].
  destruct (Nat.eqb_spec n 0) as [->|Hn]; simpl; rewrite IH; reflexivity.
Qed.

Lemma list_sum_indicator (s : string) (L : list string) :
  NoDup L -> In s L ->
  list_sum (map (fun lab => if String.eqb s lab then 1%nat else 0%nat) L) = 1%nat.
Proof.
  induction L as [|a L IH]; simpl; intros Hnd Hin; [contradiction|].
  inversion Hnd as [|? ? Hnot Hnd']; subst.
  destruct (String.eqb_spec s a) as [->|Hne].
  - f_equal. clear -Hnot. induction L as [|b L IH]; simpl; [reflexivity|].
    destruct (String.eqb_spec a b) as [->|_].
    + exfalso. apply Hnot. left. reflexivity.
    + apply IH. intros Hin. apply Hnot. right. exact Hin.
  - destruct Hin as [->|Hin]; [congruence|]. apply IH; assumption.
Qed.

Lemma count_labels_total (L : list string) (cs : list classed) :
  NoDup L -> (forall c, In c cs -> In (snd c) L) ->
  list_sum (map (fun lab => count_label lab cs) L) = length cs.
Proof.
  intros Hnd. induction cs as [|c cs IH]; intros Hall.
  - unfold count_label. simpl. clear Hnd Hall. induction L; simpl; auto.
  - assert (Hstep : forall lab,
              count_label lab (c :: cs) =
              ((if String.eqb (snd c) lab then 1 else 0) + count_label lab cs)%nat).
    { intros lab. unfold count_label. simpl.
      destruct (String.eqb (snd c) lab); reflexivity. }
    rewrite (map_ext _ _ Hstep).
    assert (Hsplit : forall (f g : string -> nat) (l : list string),
              list_sum (map (fun x => (f x + g x)%nat) l) =
              (list_sum (map f l) + list_sum (map g l))%nat).
    { intros f g l. induction l as [|a l IHl]; simpl; [reflexivity|].
      rewrite IHl. lia. }
    rewrite Hsplit, list_sum_indicator, IH; simpl; auto.
    + intros c' Hc'. apply Hall. right. exact Hc'.
    + apply Hall. left. reflexivity.
Qed.

(** X13: on a non-empty roster the class summary of the report lists
    exactly the bands that have at least one row, each with its number of
    rows, and the listed numbers add up to the number of rows: every row,
    also one with missing or out-of-range marks, is counted in exactly one
    of the five bands. *)
Theorem report_class_summary (self : StudentManager) (inp : list string) :
  students_df self <> [] ->
  exists rep,
    generate_report self inp = Ret tt inp [PerformanceReport rep] /\
    (forall lab n,
       In (lab, n) (class_counts rep) <->
       In lab labels /\ n <> 0%nat /\
       n = length (filter (fun r => String.eqb (class_label (marks r)) lab)
                          (students_df self))) /\
    list_sum (map snd (class_counts rep)) = total rep.
Proof.
  intros Hne.
  destruct (generate_report_run self inp Hne)
    as (rep & Hrun & Htotal & _ & _ & _ & Hcounts).
  exists rep. split; [exact Hrun|]. rewrite Hcounts, Htotal.
  unfold value_counts_sorted. split.
  - intros lab n. rewrite filter_In, in_map_iff. cbn [snd].
    rewrite negb_true_iff, Nat.eqb_neq. split.
    + intros ((lab' & Heq & Hin) & Hn). injection Heq as -> <-.
      split; [|split; [exact Hn | apply count_label_rows]].
      simpl in Hin. unfold labels. simpl. tauto.
    + intros (Hin & Hn & ->). split; [|exact Hn].
      exists lab. split; [rewrite count_label_rows; reflexivity|].
      unfold labels in Hin. simpl in Hin. simpl. tauto.
  - rewrite list_sum_nonzero, map_map. cbn [snd].
    rewrite count_labels_total.
    + rewrite _apply_class_label_map. apply length_map.
    + repeat constructor; simpl; intuition discriminate.
    + intros [r lab] Hc. apply _apply_class_label_In in Hc as [_ ->]. cbn [snd].
      pose proof (class_label_is_band (marks r)) as Hb.
      unfold labels in Hb. simpl in Hb. simpl. tauto.
Qed.

Lemma report_class_summary_witness :
  exists rep,
    generate_report (mkManager [mkRow 1 (Some "Alice") (Some 90);
                                mkRow 2 (Some "Bob") (Some 40);
                                mkRow (-1) None None;
                                mkRow 5 (Some "Eve") (Some 12)]
                               (mkDisk Absent true)) [] =
      Ret tt [] [PerformanceReport rep] /\
    class_counts rep = [("Distinction", 1%nat); ("Fail", 2%nat); ("Third Class", 1%nat)] /\
    list_sum (map snd (class_counts rep)) = total rep.
Proof.
  destruct (report_class_summary
              (mkManager [mkRow 1 (Some "Alice") (Some 90);
                          mkRow 2 (Some "Bob") (Some 40);
                          mkRow (-1) None None;
                          mkRow 5 (Some "Eve") (Some 12)]
                         (mkDisk Absent true)) [])
    as (rep & Hrun & _ & Hsum).
  - discriminate.
  - exists rep. split; [exact Hrun|]. split; [|exact Hsum].
    injection Hrun as <-. reflexivity.
Defined.

(* ================================================================== *)
(** * The shell: view_students, the menu loop and the program *)

From Stdlib Require Import Sorted Permutation Relations.

(** ** view_students *)

Fixpoint insert_by_roll (c : classed) (l : list classed) : list classed :=
  match l with
  | [] => [c]
  | d :: l' =>
      if roll_no (fst c) <=? roll_no (fst d)
      then c :: l
      else d :: insert_by_roll c l'
  end.

(** [display_df.sort_values(by='roll_no').reset_index(drop=True)].  Rows
    with equal roll numbers are kept in roster order here; the source's
    default sort leaves their relative order open, and nothing below
    depends on it. *)
Definition sort_values_roll_no (l : list classed) : list classed :=
  fold_right insert_by_roll [] l.

(** Lines printed by the shell: those of the methods above, and the
    shell's own. *)
Inductive shell_msg :=
| Said (m : msg)                          (* a line of add, search, update, delete, report *)
| RosterIsEmpty                           (* The student roster is currently empty. *)
| RosterTable (rows : list classed)       (* --- Student Roster --- + table *)
| InvalidMenuChoice                       (* Invalid choice. Please select a number from the menu. *)
| Goodbye.                                (* Exiting application. Goodbye! *)

Definition view_students (self : StudentManager) : list shell_msg :=
  match students_df self with
  | [] => [RosterIsEmpty]
  | _ :: _ =>
      let display_df := _apply_class_label (students_df self) in
      [RosterTable (sort_values_roll_no display_df)]
  end.

(** ** menu *)

(** One pass through the body of the [while True] loop, after the choice
    has been read: carry on with a manager, leave the loop, or let an
    EOFError escape. *)
Inductive turn :=
| Continue (self : StudentManager) (rest : list string) (out : list shell_msg)
| Break (rest : list string) (out : list shell_msg)
| Raised (out : list shell_msg).

(** A method that returns the manager it leaves. *)
Definition call (r : result StudentManager) : turn :=
  match r with
  | Ret self' rest out => Continue self' rest (map Said out)
  | EOFError out => Raised (map Said out)
  end.

(** A method that only prints. *)
Definition call_on (self : StudentManager) (r : result unit) : turn :=
  match r with
  | Ret _ rest out => Continue self rest (map Said out)
  | EOFError out => Raised (map Said out)
  end.

Definition menu_turn (manager : StudentManager) (choice : string)
                     (rest : list string) : turn :=
  if String.eqb choice "1" then call (add_student manager rest)
  else if String.eqb choice "2" then Continue manager rest (view_students manager)
  else if String.eqb choice "3" then call_on manager (search_student manager rest)
  else if String.eqb choice "4" then call (update_student manager rest)
  else if String.eqb choice "5" then call (delete_student manager rest)
  else if String.eqb choice "6" then call_on manager (generate_report manager rest)
  else if String.eqb choice "7" then Break rest [Goodbye]
  else Continue manager rest [InvalidMenuChoice].

(** How a run of the menu ends: by choice 7, with the manager it leaves
    and the lines not read, or by an EOFError nobody catches. *)
Inductive session :=
| Exited (self : StudentManager) (rest : list string) (out : list shell_msg)
| Crashed (out : list shell_msg).

Definition printed_before (pre : list shell_msg) (s : session) : session :=
  match s with
  | Exited self rest out => Exited self rest (pre ++ out)
  | Crashed out => Crashed (pre ++ out)
  end.

(** *** Methods read the console from the front *)

(** What a method leaves unread is a tail of what it was given. *)
Definition forward {A} (m : IO A) : Prop :=
  forall inp a rest out,
    m inp = Ret a rest out -> exists used, inp = (used ++ rest)%list.

Lemma forward_ret {A} (a : A) : forward (ret a).
Proof. intros inp a' rest out H. injection H as _ <- _. exists []. reflexivity. Qed.

Lemma forward_print (m : msg) : forward (print m).
Proof. intros inp a' rest out H. injection H as _ <- _. exists []. reflexivity. Qed.

Lemma forward_input : forward input.
Proof.
  intros [|l inp] a rest out H; [discriminate|].
  injection H as _ <- _. exists [l]. reflexivity.
Qed.

Lemma forward_bind {A B} (m : IO A) (k : A -> IO B) :
  forward m -> (forall a, forward (k a)) -> forward (bind m k).
Proof.
  intros Hm Hk inp b rest out H.
  apply bind_Ret_inv in H as (a & rest1 & o1 & o2 & H1 & H2 & _).
  apply Hm in H1 as (u1 & ->). apply Hk in H2 as (u2 & ->).
  exists (u1 ++ u2)%list. rewrite app_assoc. reflexivity.
Qed.

Lemma forward__get_integer_input (lo hi : option Z) :
  forward (_get_integer_input lo hi).
Proof.
  intros inp. induction inp as [|l inp IH]; simpl; intros v rest out H; [discriminate|].
  assert (Hrec : forall pre, after pre (_get_integer_input lo hi inp) = Ret v rest out ->
                             exists used, l :: inp = (used ++ rest)%list).
  { intros pre Hpre. apply after_Ret_inv in Hpre as (o & Hpre & _).
    apply IH in Hpre as (u & ->). exists (l :: u). reflexivity. }
  destruct (py_int l) as [value|]; [|eauto].
  destruct (too_low lo value); [eauto|].
  destruct (too_high hi value); [eauto|].
  injection H as _ <- _. exists [l]. reflexivity.
Qed.

Lemma forward_add_student_roll_loop (df : DataFrame) :
  forward (add_student_roll_loop df).
Proof.
  intros inp.
  apply (add_student_roll_loop_elim
           (fun df inp res =>
              forall r rest out, res = Ret r rest out ->
                                 exists used, inp = (used ++ rest)%list)).
  - intros df0 inp0 roll rest0 out0 Hread IH _ r rest out H.
    apply forward__get_integer_input in Hread as (u & ->).
    destruct (roll_in roll df0).
    + apply after_Ret_inv in H as (o & H & _). apply IH in H as (u' & ->).
      exists (u ++ u')%list. rewrite app_assoc. reflexivity.
    + injection H as _ <- _. exists u. reflexivity.
  - intros df0 inp0 out0 _ _ r rest out H. discriminate.
Qed.

Lemma forward__save_data (self : StudentManager) : forward (_save_data self).
Proof.
  intros inp a rest out H. rewrite _save_data_run in H.
  injection H as _ <- _. exists []. reflexivity.
Qed.

Ltac forward_steps :=
  repeat first
    [ apply forward_ret | apply forward_print | apply forward_input
    | apply forward__get_integer_input | apply forward_add_student_roll_loop
    | apply forward__save_data
    | apply forward_bind; [|intros ?] ].

Lemma forward_add_student (self : StudentManager) : forward (add_student self).
Proof.
  unfold add_student. forward_steps. cbv zeta.
  destruct (String.eqb _ ""); forward_steps.
Qed.

Lemma forward_search_student (self : StudentManager) : forward (search_student self).
Proof.
  unfold search_student. forward_steps. cbv zeta.
  destruct (rows_with_roll _ _); forward_steps.
Qed.

Lemma forward_update_student (self : StudentManager) : forward (update_student self).
Proof.
  unfold update_student. forward_steps. cbv zeta.
  destruct (rows_with_roll _ _); forward_steps.
  destruct (String.eqb _ "1"); forward_steps.
  - cbv zeta. destruct (String.eqb _ ""); forward_steps.
  - destruct (String.eqb _ "2"); forward_steps.
Qed.

Lemma forward_delete_student (self : StudentManager) : forward (delete_student self).
Proof.
  unfold delete_student. forward_steps.
  destruct (negb _); forward_steps.
Qed.

Lemma forward_generate_report (self : StudentManager) : forward (generate_report self).
Proof.
  unfold generate_report. destruct (students_df self); forward_steps.
Qed.

(** A pass of the loop that carries on leaves a tail of the lines it had,
    and either the manager it had or one reached by a completed add,
    update or delete. *)
Lemma menu_turn_Continue (manager : StudentManager) (choice : string) rest self' rest' out :
  menu_turn manager choice rest = Continue self' rest' out ->
  (exists used, rest = (used ++ rest')%list) /\
  (self' = manager \/ step manager self').
Proof.
  unfold menu_turn. intros H.
  destruct (String.eqb choice "1").
  { unfold call in H. destruct (add_student manager rest) as [a r o|o] eqn:E;
      [|discriminate]. injection H as <- <- _.
    split; [apply (forward_add_student _ _ _ _ _ E)|]. right. eapply step_add, E. }
  destruct (String.eqb choice "2").
  { injection H as <- <- _. split; [exists []; reflexivity | left; reflexivity]. }
  destruct (String.eqb choice "3").
  { unfold call_on in H. destruct (search_student manager rest) as [a r o|o] eqn:E;
      [|discriminate]. injection H as <- <- _.
    split; [apply (forward_search_student _ _ _ _ _ E) | left; reflexivity]. }
  destruct (String.eqb choice "4").
  { unfold call in H. destruct (update_student manager rest) as [a r o|o] eqn:E;
      [|discriminate]. injection H as <- <- _.
    split; [apply (forward_update_student _ _ _ _ _ E)|]. right. eapply step_update, E. }
  destruct (String.eqb choice "5").
  { unfold call in H. destruct (delete_student manager rest) as [a r o|o] eqn:E;
      [|discriminate]. injection H as <- <- _.
    split; [apply (forward_delete_student _ _ _ _ _ E)|]. right. eapply step_delete, E. }
  destruct (String.eqb choice "6").
  { unfold call_on in H. destruct (generate_report manager rest) as [a r o|o] eqn:E;
      [|discriminate]. injection H as <- <- _.
    split; [apply (forward_generate_report _ _ _ _ _ E) | left; reflexivity]. }
  destruct (String.eqb choice "7"); [discriminate|].
  injection H as <- <- _. split; [exists []; reflexivity | left; reflexivity].
Qed.

(** [menu(manager)]: reads a choice, runs it, and starts over until
    choice 7. *)
Equations? menu (manager : StudentManager) (inp : list string)
  : session by wf (length inp) lt :=
  menu manager [] := Crashed [];
  menu manager (choice :: rest) with inspect (menu_turn manager choice rest) := {
    | exist _ (Continue self' rest' out) Hturn =>
        printed_before out (menu self' rest')
    | exist _ (Break rest' out) _ => Exited manager rest' out
    | exist _ (Raised out) _ => Crashed out }.
Proof.
  apply menu_turn_Continue in Hturn as [(used & ->) _].
  simpl. rewrite length_app. lia.
Qed.

(** The program: build the manager from storage, then run the menu. *)
Definition main (d : disk) (inp : list string) : session :=
  printed_before (map Said (snd (init d))) (menu (fst (init d)) inp).

(** ** view_students: the table is the roster, sorted *)

Definition roll_le (a b : classed) : Prop := roll_no (fst a) <= roll_no (fst b).

Lemma insert_by_roll_perm (c : classed) (l : list classed) :
  Permutation (insert_by_roll c l) (c :: l).
Proof.
  induction l as [|d l IH]; simpl; [reflexivity|].
  destruct (roll_no (fst c) <=? roll_no (fst d)); [reflexivity|].
  rewrite IH. apply perm_swap.
Qed.

Lemma insert_by_roll_sorted (c : classed) (l : list classed) :
  StronglySorted roll_le l -> StronglySorted roll_le (insert_by_roll c l).
Proof.
  induction l as [|d l IH]; simpl; intros Hs.
  - constructor; constructor.
  - inversion Hs as [|? ? Hl Hd]; subst.
    destruct (Z.leb_spec (roll_no (fst c)) (roll_no (fst d))) as [Hle|Hgt].
    + constructor; [exact Hs|]. constructor; [exact Hle|].
      rewrite Forall_forall in *. intros x Hx. specialize (Hd x Hx).
      unfold roll_le in *. lia.
    + constructor; [apply IH, Hl|].
      rewrite Forall_forall in *. intros x Hx.
      apply (Permutation_in _ (insert_by_roll_perm c l)) in Hx.
      destruct Hx as [<-|Hx]; [unfold roll_le; lia | apply Hd, Hx].
Qed.

Lemma sort_values_roll_no_perm (l : list classed) :
  Permutation (sort_values_roll_no l) l.
Proof.
  induction l as [|c l IH]; simpl; [reflexivity|].
  rewrite insert_by_roll_perm, IH. reflexivity.
Qed.

Lemma sort_values_roll_no_sorted (l : list classed) :
  StronglySorted roll_le (sort_values_roll_no l).
Proof.
  induction l as [|c l IH]; simpl; [constructor|].
  apply insert_by_roll_sorted, IH.
Qed.

(** X14: view_students prints the empty-roster line on an empty roster;
    otherwise it prints one table that holds every roster row exactly as
    often as the roster does, each with its class label, in ascending
    order of roll number. *)
Theorem view_students_sorted_roster (self : StudentManager) :
  (students_df self = [] -> view_students self = [RosterIsEmpty]) /\
  (students_df self <> [] ->
   exists rows,
     view_students self = [RosterTable rows] /\
     Permutation rows (_apply_class_label (students_df self)) /\
     StronglySorted roll_le rows /\
     (forall r lab, In (r, lab) rows <->
                    In r (students_df self) /\ lab = class_label (marks r))).
Proof.
  unfold view_students. split.
  - intros ->. reflexivity.
  - intros Hne. destruct (students_df self) as [|x df] eqn:E; [congruence|].
    eexists. split; [reflexivity|].
    split; [apply sort_values_roll_no_perm|].
    split; [apply sort_values_roll_no_sorted|].
    intros r lab. rewrite <- _apply_class_label_In. split.
    + apply Permutation_in, sort_values_roll_no_perm.
    + apply Permutation_in. symmetry. apply sort_values_roll_no_perm.
Qed.

Lemma view_students_sorted_roster_witness :
  view_students (mkManager [mkRow 5 (Some "Bob") (Some 40);
                            mkRow (-1) None None;
                            mkRow 2 (Some "Al") (Some 90)] (mkDisk Absent true)) =
  [RosterTable [(mkRow (-1) None None, "Fail");
                (mkRow 2 (Some "Al") (Some 90), "Distinction");
                (mkRow 5 (Some "Bob") (Some 40), "Third Class")]].
Proof.
  destruct (proj2 (view_students_sorted_roster
                     (mkManager [mkRow 5 (Some "Bob") (Some 40);
                                 mkRow (-1) None None;
                                 mkRow 2 (Some "Al") (Some 90)] (mkDisk Absent true))))
    as (rows & Hrun & _).
  - discriminate.
  - injection Hrun as <-. reflexivity.
Defined.

(** ** menu and main: what a whole session does *)

(** The loop unfolded once. *)
Lemma menu_eq (manager : StudentManager) (choice : string) (rest : list string) :
  menu manager (choice :: rest) =
  match menu_turn manager choice rest with
  | Continue self' rest' out => printed_before out (menu self' rest')
  | Break rest' out => Exited manager rest' out
  | Raised out => Crashed out
  end.
Proof.
  enough (Hall : forall m inp c r,
             inp = c :: r ->
             menu m inp = match menu_turn m c r with
                          | Continue self' rest' out =>
                              printed_before out (menu self' rest')
                          | Break rest' out => Exited m rest' out
                          | Raised out => Crashed out
                          end) by (apply Hall; reflexivity).
  intros m inp.
  apply (menu_elim
           (fun manager inp res =>
              forall c r,
                inp = c :: r ->
                res = match menu_turn manager c r with
                      | Continue self' rest' out =>
                          printed_before out (menu self' rest')
                      | Break rest' out => Exited manager rest' out
                      | Raised out => Crashed out
                      end)).
  - intros m0 c r H. discriminate.
  - intros m0 c0 r0 self' rest' out Hturn _ _ c r H.
    injection H as <- <-. rewrite Hturn. reflexivity.
  - intros m0 c0 r0 rest' out Hturn _ c r H.
    injection H as <- <-. rewrite Hturn. reflexivity.
  - intros m0 c0 r0 out Hturn _ c r H.
    injection H as <- <-. rewrite Hturn. reflexivity.
Qed.

Lemma printed_before_Exited_inv (pre : list shell_msg) (s : session) self rest out :
  printed_before pre s = Exited self rest out ->
  exists out', s = Exited self rest out' /\ out = (pre ++ out')%list.
Proof.
  destruct s as [self' rest' out'|out']; simpl; intros H; [|discriminate].
  injection H as -> -> <-. eauto.
Qed.

Lemma menu_turn_Break (manager : StudentManager) (choice : string) rest rest' out :
  menu_turn manager choice rest = Break rest' out ->
  choice = "7" /\ rest' = rest /\ out = [Goodbye].
Proof.
  unfold menu_turn, call, call_on. intros H.
  repeat match type of H with
         | (if String.eqb choice "7" then _ else _) = _ =>
             destruct (String.eqb_spec choice "7")
         | (if ?b then _ else _) = _ => destruct b
         | match ?r with _ => _ end = _ => destruct r
         end; try discriminate.
  injection H as <- <-. auto.
Qed.

(** A session that exits has gone through completed add, update and
    delete actions only, has read a tail-preserving prefix ending in the
    line 7, and has printed the goodbye line last. *)
Lemma menu_Exited_inv (manager : StudentManager) (inp : list string) :
  forall self rest out,
    menu manager inp = Exited self rest out ->
    clos_refl_trans StudentManager step manager self /\
    (exists before, inp = (before ++ "7" :: rest)%list) /\
    (exists out', out = (out' ++ [Goodbye])%list).
Proof.
  apply (menu_elim
           (fun manager inp res =>
              forall self rest out,
                res = Exited self rest out ->
                clos_refl_trans StudentManager step manager self /\
                (exists before, inp = (before ++ "7" :: rest)%list) /\
                (exists out', out = (out' ++ [Goodbye])%list))).
  - intros m self rest out H. discriminate.
  - intros m c r self' rest' out Hturn IH _ self rest out0 H.
    apply printed_before_Exited_inv in H as (out' & H & ->).
    destruct (IH _ _ _ H) as (Hsteps & (before & ->) & (o & ->)).
    apply menu_turn_Continue in Hturn as [(used & ->) Hstep].
    split; [|split].
    + apply rt_trans with (y := self'); [|exact Hsteps].
      destruct Hstep as [->|Hstep]; [apply rt_refl | apply rt_step, Hstep].
    + exists (c :: used ++ before)%list. simpl. rewrite <- app_assoc. reflexivity.
    + exists (out ++ o)%list. rewrite app_assoc. reflexivity.
  - intros m c r rest' out Hturn _ self rest out0 H.
    injection H as <- <- <-.
    apply menu_turn_Break in Hturn as (-> & -> & ->).
    split; [apply rt_refl|]. split; [exists []|exists []]; reflexivity.
  - intros m c r out Hturn _ self rest out0 H. discriminate.
Qed.

Lemma steps_keep_rolls_unique (self self' : StudentManager) :
  clos_refl_trans StudentManager step self self' ->
  NoDup (roll_values (students_df self)) ->
  NoDup (roll_values (students_df self')).
Proof.
  induction 1 as [x y Hstep|x|x y z _ IH1 _ IH2]; intros Hnd.
  - eapply step_keeps_rolls_unique; eassumption.
  - exact Hnd.
  - auto.
Qed.

Lemma steps_observable (d : disk) (self self' : StudentManager) :
  clos_refl_trans StudentManager step self self' ->
  observable d self -> observable d self'.
Proof.
  induction 1 as [x y Hstep|x|x y z _ IH1 _ IH2]; intros Hobs.
  - eapply observable_step; eassumption.
  - exact Hobs.
  - auto.
Qed.

Lemma main_Exited_inv (d : disk) (inp : list string) self rest out :
  main d inp = Exited self rest out ->
  exists out', menu (fst (init d)) inp = Exited self rest out'.
Proof.
  unfold main. intros H.
  apply printed_before_Exited_inv in H as (out' & H & _). eauto.
Qed.

(** X15: a session of the menu that ends by choice 7 has read the console
    up to and including a line 7, leaving the lines after it unread, and
    the last line it printed is the goodbye line. *)
Theorem menu_exits_by_choice_7 (manager : StudentManager) (inp : list string)
        self rest out :
  menu manager inp = Exited self rest out ->
  (exists before, inp = (before ++ "7" :: rest)%list) /\
  (exists out', out = (out' ++ [Goodbye])%list).
Proof. intros H. apply menu_Exited_inv in H as (_ & Hinp & Hout). auto. Qed.

Lemma menu_exits_by_choice_7_witness :
  let manager := mkManager [mkRow 7 (Some "Gus") (Some 77)] (mkDisk Absent true) in
  exists before out',
    ["3"; "7"; "9"; "7"; "2"] = (before ++ "7" :: ["2"])%list /\
    [Said (StudentFound 7 [(mkRow 7 (Some "Gus") (Some 77), "Distinction")]);
     InvalidMenuChoice; Goodbye] = (out' ++ [Goodbye])%list.
Proof.
  intros manager.
  destruct (menu_exits_by_choice_7 manager ["3"; "7"; "9"; "7"; "2"] manager ["2"]
              [Said (StudentFound 7 [(mkRow 7 (Some "Gus") (Some 77), "Distinction")]);
               InvalidMenuChoice; Goodbye] eq_refl)
    as ((before & Hinp) & (out' & Hout)).
  exists before, out'. split; [exact Hinp | exact Hout].
Defined.

(** X16: whatever is typed, a program run that ends by choice 7 leaves a
    manager state reached from the startup state by completed add, update
    and delete actions; so when the loaded roster has pairwise distinct
    roll numbers, the roster at exit has too. *)
Theorem session_keeps_rolls_unique (d : disk) (inp : list string) self rest out :
  main d inp = Exited self rest out ->
  observable d self /\
  (NoDup (roll_values (students_df (fst (init d)))) ->
   NoDup (roll_values (students_df self))).
Proof.
  intros H. apply main_Exited_inv in H as (out' & H).
  apply menu_Exited_inv in H as (Hsteps & _). split.
  - apply (steps_observable d _ _ Hsteps). constructor.
  - apply steps_keep_rolls_unique, Hsteps.
Qed.

Lemma session_keeps_rolls_unique_witness :
  let d := mkDisk (Sheet [mkRaw (Some 1) (Some "Alice") (Some 90)]) true in
  exists self out,
    main d ["1"; "Bob"; "1"; "2"; "40"; "4"; "2"; "1"; "Rob"; "5"; "1"; "7"] =
      Exited self [] out /\
    students_df self = [mkRow 2 (Some "Rob") (Some 40)] /\
    NoDup (roll_values (students_df self)).
Proof.
  intros d. eexists. eexists. split; [reflexivity|]. split; [reflexivity|].
  apply (session_keeps_rolls_unique d
           ["1"; "Bob"; "1"; "2"; "40"; "4"; "2"; "1"; "Rob"; "5"; "1"; "7"]
           _ [] _ eq_refl).
  repeat constructor. simpl. tauto.
Defined.

(** X18: only choices 1, 4 and 5 can change the manager: a pass of the
    menu loop on any other choice (view, search, report, or a line that is
    no menu number) carries on with the roster and storage it had; a line
    that is no menu number reads nothing further and prints the
    invalid-choice line. *)
Theorem menu_read_only_choices
  (manager : StudentManager) (choice : string) (rest : list string) :
  choice <> "1" -> choice <> "4" -> choice <> "5" ->
  (forall self' rest' out,
     menu_turn manager choice rest = Continue self' rest' out ->
     self' = manager) /\
  (choice <> "2" -> choice <> "3" -> choice <> "6" -> choice <> "7" ->
   menu manager (choice :: rest) =
     printed_before [InvalidMenuChoice] (menu manager rest)).
Proof.
  intros H1 H4 H5. apply String.eqb_neq in H1, H4, H5. split.
  - intros self' rest' out H. unfold menu_turn in H. rewrite H1, H4, H5 in H.
    unfold call_on in H.
    repeat match type of H with
           | (if ?b then _ else _) = _ => destruct b
           | match ?r with _ => _ end = _ => destruct r
           end; try discriminate; injection H as <- _ _; reflexivity.
  - intros H2 H3 H6 H7. apply String.eqb_neq in H2, H3, H6, H7.
    rewrite menu_eq. unfold menu_turn.
    rewrite H1, H2, H3, H4, H5, H6, H7. reflexivity.
Qed.

Lemma menu_read_only_choices_witness :
  let manager := mkManager [mkRow 1 (Some "Alice") (Some 90)] (mkDisk Absent true) in
  menu manager ["1 "; "7"] = Exited manager [] [InvalidMenuChoice; Goodbye].
Proof.
  intros manager.
  rewrite (proj2 (menu_read_only_choices manager "1 " ["7"]
                    ltac:(discriminate) ltac:(discriminate) ltac:(discriminate)));
    try discriminate.
  reflexivity.
Defined.

(** ** search_student on a roster with distinct roll numbers *)

Lemma rows_with_roll_unique (df : DataFrame) (r : Z) :
  NoDup (roll_values df) -> roll_in r df = true ->
  exists x, rows_with_roll df r = [x] /\ In x df /\ roll_no x = r.
Proof.
  unfold roll_values, rows_with_roll.
  induction df as [|y df IH]; simpl; intros Hnd Hin; [discriminate|].
  inversion Hnd as [|? ? Hnot Hnd']; subst.
  destruct (Z.eqb_spec (roll_no y) r) as [Heq|Hne].
  - exists y. split; [|auto]. f_equal.
    fold (rows_with_roll df r). apply rows_with_roll_nil, roll_in_false.
    rewrite <- Heq. exact Hnot.
  - unfold roll_in in Hin. simpl in Hin.
    destruct (Z.eqb_spec r (roll_no y)) as [Heq|_]; [congruence|].
    destruct (IH Hnd' Hin) as (x & Hx & Hxin & Hxr).
    exists x. auto.
Qed.

(** X19: when the roster has pairwise distinct roll numbers, searching a
    roll number that is in the roster shows exactly one record, the roster
    row with that roll number, with its class label. *)
Theorem search_shows_the_one_record (self : StudentManager) (r : Z) :
  NoDup (roll_values (students_df self)) ->
  roll_in r (students_df self) = true ->
  exists x,
    In x (students_df self) /\ roll_no x = r /\
    search_shows self r (StudentFound r [(x, class_label (marks x))]).
Proof.
  intros Hnd Hin.
  destruct (rows_with_roll_unique _ _ Hnd Hin) as (x & Hrows & Hx & Hr).
  exists x. split; [exact Hx|]. split; [exact Hr|].
  pose proof (search_student_found self r Hin) as Hshow.
  rewrite Hrows in Hshow. exact Hshow.
Qed.

Lemma search_shows_the_one_record_witness :
  let self := mkManager [mkRow 1 (Some "Alice") (Some 90);
                         mkRow 2 (Some "Bob") (Some 40)] (mkDisk Absent true) in
  exists x,
    roll_no x = 2 /\
    search_student self ["two"; "2"] =
      Ret tt [] [NotWholeNumber; StudentFound 2 [(x, class_label (marks x))]].
Proof.
  intros self.
  destruct (search_shows_the_one_record self 2) as (x & _ & Hr & Hshow).
  - repeat constructor; simpl; intuition discriminate.
  - reflexivity.
  - exists x. split; [exact Hr|].
    apply (Hshow ["two"; "2"] [] [NotWholeNumber]). reflexivity.
Defined.

(** ** The classifier is monotone *)

(** Position of a band label in [labels], from Fail (0) to Distinction (4). *)
Fixpoint band_rank_in (ls : list string) (lab : string) : nat :=
  match ls with
  | [] => 0
  | l :: ls' => if String.eqb l lab then 0 else S (band_rank_in ls' lab)
  end.

Definition band_rank (lab : string) : nat := band_rank_in labels lab.

(** X20: on valid marks the classifier is monotone: of two marks in
    [0,100], the higher one never gets a lower band. *)
Theorem class_label_monotone (a b : Z) :
  0 <= a -> a <= b -> b <= 100 ->
  (band_rank (class_label (Some a)) <= band_rank (class_label (Some b)))%nat.
Proof.
  intros Ha Hab Hb.
  unfold class_label, cut_cell, bins, labels, cut.
  repeat match goal with
         | |- context [(?x <=? ?y)] => destruct (Z.leb_spec x y); simpl
         | |- context [(?x <? ?y)] => destruct (Z.ltb_spec x y); simpl
         end;
    try lia; unfold band_rank; simpl; lia.
Qed.

Lemma class_label_monotone_witness :
  (band_rank (class_label (Some 59%Z)) <= band_rank (class_label (Some 60%Z)))%nat.
Proof. apply (class_label_monotone 59 60); lia. Defined.

(** ** An action cut short by EOFError has saved nothing *)

Definition no_save_line (out : list msg) : Prop :=
  ~ In DataSaved out /\ ~ In SaveError out.

Lemma no_save_line_app (p q : list msg) :
  no_save_line p -> no_save_line q -> no_save_line (p ++ q).
Proof.
  unfold no_save_line. intros [Hp1 Hp2] [Hq1 Hq2].
  split; rewrite in_app_iff; tauto.
Qed.

Lemma bind_EOF_inv {A B} (m : IO A) (k : A -> IO B) inp out :
  bind m k inp = EOFError out ->
  m inp = EOFError out \/
  exists a rest o1 o2,
    m inp = Ret a rest o1 /\ k a rest = EOFError o2 /\ out = (o1 ++ o2)%list.
Proof.
  unfold bind. destruct (m inp) as [a rest o1|o1]; [|intros H; injection H as <-; left; reflexivity].
  intros H. right. destruct (k a rest) as [b rest' o2|o2] eqn:E; simpl in H;
    [discriminate|].
  injection H as <-. exists a, rest, o1, o2. auto.
Qed.

(** The lines a run has printed, however it ended. *)
Definition printed {A} (r : result A) : list msg :=
  match r with
  | Ret _ _ out => out
  | EOFError out => out
  end.

Lemma printed_after {A} (pre : list msg) (r : result A) :
  printed (after pre r) = (pre ++ printed r)%list.
Proof. destruct r; reflexivity. Qed.

Lemma prompt_no_save_line (lo hi : option Z) (inp : list string) :
  no_save_line (printed (_get_integer_input lo hi inp)).
Proof.
  induction inp as [|l inp IH]; simpl.
  - split; intros [].
  - assert (Hrec : forall c, c <> DataSaved -> c <> SaveError ->
              no_save_line (printed (after [c] (_get_integer_input lo hi inp)))).
    { intros c H1 H2. rewrite printed_after.
      apply (no_save_line_app [c]); [|exact IH].
      split; intros [Hc|[]]; congruence. }
    destruct (py_int l) as [v|]; [|apply Hrec; discriminate].
    unfold too_low, too_high.
    destruct lo as [b|]; [destruct (v <? b); [apply Hrec; discriminate|]|];
      (destruct hi as [b'|]; [destruct (b' <? v); [apply Hrec; discriminate|]|]);
      split; intros [].
Qed.

Lemma roll_loop_no_save_line (df : DataFrame) (inp : list string) :
  no_save_line (printed (add_student_roll_loop df inp)).
Proof.
  apply (add_student_roll_loop_elim
           (fun df inp res => no_save_line (printed res))).
  - intros df0 inp0 roll rest0 out0 Hread IH _.
    pose proof (prompt_no_save_line None None inp0) as Hp. rewrite Hread in Hp.
    destruct (roll_in roll df0); [|exact Hp].
    rewrite printed_after. apply no_save_line_app; [|exact IH].
    apply no_save_line_app; [exact Hp|]. split; intros [Hc|[]]; discriminate.
  - intros df0 inp0 out0 Hread _.
    pose proof (prompt_no_save_line None None inp0) as Hp. rewrite Hread in Hp.
    exact Hp.
Qed.

Lemma no_save_line_of_Ret {A} (r : result A) a rest out :
  no_save_line (printed r) -> r = Ret a rest out -> no_save_line out.
Proof. intros H ->. exact H. Qed.

Lemma no_save_line_of_EOF {A} (r : result A) out :
  no_save_line (printed r) -> r = EOFError out -> no_save_line out.
Proof. intros H ->. exact H. Qed.

Lemma no_save_line_one (m : msg) :
  m <> DataSaved -> m <> SaveError -> no_save_line [m].
Proof. intros H1 H2. split; intros [H|[]]; congruence. Qed.

Lemma add_student_EOF (self : StudentManager) (inp : list string) out :
  add_student self inp = EOFError out -> no_save_line out.
Proof.
  intros H. destruct inp as [|nm inp].
  { injection H as <-. split; intros []. }
  destruct (String.eqb (strip nm) "") eqn:Ename.
  { apply String.eqb_eq in Ename.
    rewrite (add_student_blank_name _ _ _ Ename) in H. discriminate. }
  apply String.eqb_neq in Ename. rewrite (add_student_named _ _ _ Ename) in H.
  apply bind_EOF_inv in H as [H | (r & rest1 & o1 & o2 & Hloop & H & ->)].
  { exact (no_save_line_of_EOF _ _ (roll_loop_no_save_line _ _) H). }
  apply no_save_line_app.
  { exact (no_save_line_of_Ret _ _ _ _ (roll_loop_no_save_line _ _) Hloop). }
  apply bind_EOF_inv in H as [H | (m & rest2 & o3 & o4 & Hmarks & H & ->)].
  { exact (no_save_line_of_EOF _ _ (prompt_no_save_line _ _ _) H). }
  rewrite (bind_Ret _ _ _ _ _ _ (_save_data_run _ _)) in H. discriminate.
Qed.

Lemma update_student_EOF (self : StudentManager) (inp : list string) out :
  update_student self inp = EOFError out -> no_save_line out.
Proof.
  unfold update_student. intros H.
  apply bind_EOF_inv in H as [H | (r & rest1 & o1 & o2 & Hread & H & ->)].
  { exact (no_save_line_of_EOF _ _ (prompt_no_save_line _ _ _) H). }
  apply no_save_line_app.
  { exact (no_save_line_of_Ret _ _ _ _ (prompt_no_save_line _ _ _) Hread). }
  destruct (rows_with_roll (students_df self) r) as [|x l]; [discriminate|].
  apply bind_EOF_inv in H as [H | ([] & rest2 & o3 & o4 & Hp & H & ->)];
    [discriminate|].
  injection Hp as <- <-.
  apply (no_save_line_app [_]); [apply no_save_line_one; discriminate|].
  apply bind_EOF_inv in H as [H | (choice & rest3 & o5 & o6 & Hc & H & ->)].
  { destruct rest1; [injection H as <-; split; intros [] | discriminate]. }
  destruct rest1 as [|c rest1]; [discriminate|]. injection Hc as <- <- <-.
  apply (no_save_line_app []); [split; intros []|].
  destruct (String.eqb c "1").
  - apply bind_EOF_inv in H as [H | (line & rest4 & o7 & o8 & Hl & H & ->)].
    { destruct rest1; [injection H as <-; split; intros [] | discriminate]. }
    destruct rest1 as [|l1 rest1]; [discriminate|]. injection Hl as <- <- <-.
    cbv zeta in H. destruct (String.eqb (strip l1) ""); [discriminate|].
    rewrite (bind_Ret _ _ _ _ _ _ eq_refl), _save_data_run in H. discriminate.
  - destruct (String.eqb c "2"); [|discriminate].
    apply bind_EOF_inv in H as [H | (v & rest4 & o7 & o8 & Hv & H & ->)].
    { exact (no_save_line_of_EOF _ _ (prompt_no_save_line _ _ _) H). }
    rewrite (bind_Ret _ _ _ _ _ _ eq_refl), _save_data_run in H. discriminate.
Qed.

Lemma delete_student_EOF (self : StudentManager) (inp : list string) out :
  delete_student self inp = EOFError out -> no_save_line out.
Proof.
  unfold delete_student. intros H.
  apply bind_EOF_inv in H as [H | (r & rest1 & o1 & o2 & Hread & H & ->)].
  { exact (no_save_line_of_EOF _ _ (prompt_no_save_line _ _ _) H). }
  destruct (roll_in r (students_df self)); cbn [negb] in H; [|discriminate].
  rewrite (bind_Ret _ _ _ _ _ _ (_save_data_run _ _)) in H. discriminate.
Qed.

(** X21: an add, update or delete that is cut short because console input
    runs out (EOFError) has printed neither the saved line nor the save
    error: _save_data was not reached, so nothing was written to storage
    by the unfinished action. *)
Theorem unfinished_action_saves_nothing
  (self : StudentManager) (inp : list string) (out : list msg) :
  add_student self inp = EOFError out \/
  update_student self inp = EOFError out \/
  delete_student self inp = EOFError out ->
  ~ In DataSaved out /\ ~ In SaveError out.
Proof.
  intros [H | [H | H]].
  - apply (add_student_EOF _ _ _ H).
  - apply (update_student_EOF _ _ _ H).
  - apply (delete_student_EOF _ _ _ H).
Qed.

Lemma unfinished_action_saves_nothing_witness :
  ~ In DataSaved [RollExists 1; NotWholeNumber] /\
  ~ In SaveError [RollExists 1; NotWholeNumber].
Proof.
  apply (unfinished_action_saves_nothing
           (mkManager [mkRow 1 (Some "Alice") (Some 90)] (mkDisk Absent true))
           ["Carol"; "1"; "x"]).
  left. reflexivity.
Defined.
